(** * Chrome Web Store publisher (bin/publish-extension.py)

    A shallow embedding of the command-line publisher: the OAuth token
    refresh, the three authorized operations (upload, publish, info), the
    credential bootstrap and the CLI driver, followed by the properties
    the specification states about them.

    Python objects parsed from JSON are values of [pyval]; dictionaries
    (JSON objects, request headers, query parameters, [os.environ]) are
    finite maps; a [str] is a [string] of its UTF-8 bytes.  Everything the script reads from outside (network
    replies, files, standard input) is a field of [World]; everything it
    does to the outside (HTTP requests, prints, file writes) is appended
    to a trace.  Exceptions and [sys.exit] are outcomes of a small
    state-and-error monad. *)

From Stdlib Require Import ZArith String Ascii List Bool Floats Lia.
From stdpp Require Import base option list gmap strings.

#[local] Set Warnings "-register-all".
#[local] Open Scope string_scope.

(** ** Python values *)

Module Py.

(** What [json.load] / [response.json()] can return. *)
Inductive pyval : Type :=
| PyNone
| PyBool (b : bool)
| PyInt (n : Z)
| PyFloat (f : float)
| PyStr (s : string)
| PyList (l : list pyval)
| PyDict (d : gmap string pyval).

(** Exceptions the script can meet.  [ConnectionError] stands for any
    transport failure raised by the [requests] calls; [HTTPError] is what
    [raise_for_status] raises; [JSONDecodeError] is the one of
    [requests.exceptions], raised by [response.json()]. *)
Inductive exn : Type :=
| ConnectionError (detail : string)
| HTTPError (status : Z)
| JSONDecodeError
| AttributeError
| TypeError
| ValueError
| OSError (detail : string)
| EOFError.

(** [isinstance(e, requests.exceptions.RequestException)] *)
Definition is_RequestException (e : exn) : bool :=
  match e with
  | ConnectionError _ | HTTPError _ | JSONDecodeError => true
  | _ => false
  end.

(** [isinstance(e, Exception)]: every exception of [exn] is one
    ([SystemExit] is not, and is a separate outcome below). *)
Definition is_Exception (e : exn) : bool := true.

(** [bool(v)] *)
Definition truthy (v : pyval) : bool :=
  match v with
  | PyNone => false
  | PyBool b => b
  | PyInt n => negb (n =? 0)%Z
  | PyFloat f => negb (f =? 0)%float
  | PyStr s => negb (String.eqb s "")
  | PyList l => negb (Nat.eqb (length l) 0)
  | PyDict d => negb (Nat.eqb (size d) 0)
  end.

(** [v == s] for a string literal [s] *)
Definition eq_str (v : pyval) (s : string) : bool :=
  match v with
  | PyStr t => String.eqb t s
  | _ => false
  end.

(** [v.get(key, dflt)]: only dictionaries have a [get] method. *)
Definition get (v : pyval) (key : string) (dflt : pyval) : exn + pyval :=
  match v with
  | PyDict d => inr (default dflt (d !! key))
  | _ => inl AttributeError
  end.

(** [pat in s] on strings *)
Definition substring_in (pat s : string) : bool :=
  match String.index 0 pat s with
  | Some _ => true
  | None => false
  end.

(** [s in v] for a string literal [s]: membership in a list, substring
    of a string, key of a dictionary; other values are not iterable. *)
Definition contains (v : pyval) (s : string) : exn + bool :=
  match v with
  | PyList l => inr (existsb (fun x => eq_str x s) l)
  | PyStr t => inr (substring_in s t)
  | PyDict d => inr (bool_decide (is_Some (d !! s)))
  | _ => inl TypeError
  end.

(** *** [str] methods used by the credential loader

    A [string] holds a Python [str] as its UTF-8 bytes, the way string
    literals of this file are read.  White space is what [str.isspace]
    accepts: U+0009-000D, U+001C-0020, U+0085, U+00A0, U+1680,
    U+2000-200A, U+2028, U+2029, U+202F, U+205F and U+3000, a character
    of one, two or three bytes. *)

(** A one-byte white space character: U+0009-000D, U+001C-0020. *)
Definition isspace1 (a : ascii) : bool :=
  let n := N_of_ascii a in
  (((9 <=? n) && (n <=? 13)) || ((28 <=? n) && (n <=? 32)))%N.

(** A two-byte one: U+0085 (C2 85) and U+00A0 (C2 A0). *)
Definition isspace2 (a b : ascii) : bool :=
  ((N_of_ascii a =? 194) && ((N_of_ascii b =? 133) || (N_of_ascii b =? 160)))%N.

(** A three-byte one: U+1680 (E1 9A 80), U+2000-200A (E2 80 80-8A),
    U+2028, U+2029 (E2 80 A8, A9), U+202F (E2 80 AF), U+205F (E2 81 9F)
    and U+3000 (E3 80 80). *)
Definition isspace3 (a b c : ascii) : bool :=
  let '(x, y, z) := (N_of_ascii a, N_of_ascii b, N_of_ascii c) in
  (((x =? 225) && (y =? 154) && (z =? 128))
   || ((x =? 226) && (y =? 128)
       && (((128 <=? z) && (z <=? 138)) || (z =? 168) || (z =? 169)
           || (z =? 175)))
   || ((x =? 226) && (y =? 129) && (z =? 159))
   || ((x =? 227) && (y =? 128) && (z =? 128)))%N.

(** [s.isspace()] for a text [s] of one character. *)
Definition isspace (s : string) : bool :=
  match s with
  | String a EmptyString => isspace1 a
  | String a (String b EmptyString) => isspace2 a b
  | String a (String b (String c EmptyString)) => isspace3 a b c
  | _ => false
  end.

Fixpoint lstrip (s : string) : string :=
  match s with
  | String a s1 =>
      if isspace1 a then lstrip s1 else
      match s1 with
      | String b s2 =>
          if isspace2 a b then lstrip s2 else
          match s2 with
          | String c s3 => if isspace3 a b c then lstrip s3 else s
          | EmptyString => s
          end
      | EmptyString => s
      end
  | EmptyString => EmptyString
  end.

(** From the right: what is left of the tail, with one more byte in
    front, is dropped when it is exactly one white space character. *)
Fixpoint rstrip (s : string) : string :=
  match s with
  | String a s' =>
      let r := String a (rstrip s') in
      if isspace r then EmptyString else r
  | EmptyString => EmptyString
  end.

Definition strip (s : string) : string := rstrip (lstrip s).

(** [str.lower] on the letters A-Z; the bytes of every other character
    are kept.  The script only compares the result with ["y"] and
    ["yes"], and no character outside ASCII has a lower case made of
    these letters. *)
Definition lower_char (c : ascii) : ascii :=
  let n := nat_of_ascii c in
  if ((65 <=? n) && (n <=? 90))%nat then ascii_of_nat (n + 32) else c.

Fixpoint lower (s : string) : string :=
  match s with
  | String c s' => String (lower_char c) (lower s')
  | EmptyString => EmptyString
  end.

Definition startswith (s p : string) : bool := String.prefix p s.

Definition endswith (s p : string) : bool :=
  String.prefix (String.rev p) (String.rev s).

(** [s.split(sep, 1)] for a one-character [sep] that occurs in [s]:
    the text before and after its first occurrence. *)
Fixpoint split1 (sep : ascii) (s : string) : option (string * string) :=
  match s with
  | EmptyString => None
  | String c s' =>
      if Ascii.eqb c sep then Some (EmptyString, s')
      else match split1 sep s' with
           | Some (k, v) => Some (String c k, v)
           | None => None
           end
  end.

Fixpoint has_char (c : ascii) (s : string) : bool :=
  match s with
  | EmptyString => false
  | String a s' => Ascii.eqb a c || has_char c s'
  end.

End Py.
Export Py.

(** ** The outside world and the trace *)

(** The ZIP artifact is either the path given with [--zip] or
    [builds/eksi-arti-v{version}.zip] under the project root. *)
Inductive path : Type :=
| ArgPath (p : string)
| BuildsZip (version : pyval).

Inductive method : Type := GET | POST | PUT.

(** A header value: a literal, or the f-string [f'Bearer {token}']. *)
Inductive header_value : Type :=
| Literal (s : string)
| Bearer (token : pyval).

(** One call of [requests.get] / [requests.post] / [requests.put]. *)
Record request : Type := mkRequest {
  req_method : method;
  req_url : string;
  req_headers : gmap string header_value;
  req_params : gmap string string;
  req_data : gmap string string;
  req_body : option (list Byte.byte) }.

Record response : Type := mkResponse {
  status_code : Z;
  text : string;
  json : option pyval      (* [None]: [response.json()] raises *) }.

Inductive net_result : Type :=
| NetError (detail : string)
| NetResponse (r : response).

Inductive file_state (A : Type) : Type :=
| Absent
| Unreadable (e : exn)
| Content (a : A).
Arguments Absent {A}.
Arguments Unreadable {A} e.
Arguments Content {A} a.

Definition file_exists {A} (f : file_state A) : bool :=
  match f with Absent => false | _ => true end.

(** Every diagnostic the script prints, with the values it interpolates. *)
Inductive message : Type :=
| MsgRefreshing
| MsgTokenRefreshed
| MsgNoAccessToken
| MsgRefreshError (e : exn)
| MsgUploading (zip : path)
| MsgUploaded
| MsgUploadFailed (item_error : pyval)
| MsgHttpError (status : Z) (body : string)
| MsgUploadError (e : exn)
| MsgPublishing (target : string)
| MsgPublished
| MsgPublishFailed (status : pyval)
| MsgPublishError (e : exn)
| MsgFetchingInfo
| MsgInfoError (e : exn)
| MsgNoPackageJson
| MsgPackageJsonError (e : exn)
| MsgPackageNotFound (zip : path)
| MsgLoadingEnv
| MsgEnvError (e : exn)
| MsgMissingCredentials (vars : list string)
| MsgZipNotFound (zip : path)
| MsgBanner (extension_id : string) (zip : path) (version : pyval)
| MsgInfo (title status version : pyval)
| MsgUploadDone
| MsgPublishDone
| MsgTestersDone
| MsgWizardBanner
| MsgExistingEnv
| MsgSetupCancelled
| MsgSetupGuide
| MsgCollect
| MsgAllRequired
| MsgSaved
| MsgGitignoreAdded
| MsgSetupComplete
| MsgSaveError (e : exn).

Inductive event : Type :=
| EPrint (m : message)
| EHttp (r : request)
| EWriteEnvFile (lines : list string)
| EAppendGitignore (lines : list string).

(** Everything the script reads.  [net sent r] is the reply to request
    [r] when the requests [sent] were issued before it. *)
Record World : Type := mkWorld {
  net : list request -> request -> net_result;
  initial_environ : gmap string string;
  env_file : file_state (list string);     (* .env.cws, line by line *)
  package_json : file_state pyval;         (* parsed package.json *)
  zip_file : path -> file_state (list Byte.byte);
  keyboard : list string;                  (* answers to input()/getpass() *)
  env_file_writable : bool;
  gitignore : file_state string;
  gitignore_writable : bool;
  date : string                            (* os.popen('date').read() *) }.

Definition is_http (e : event) : bool :=
  match e with EHttp _ => true | _ => false end.

(** The requests of a trace, in order. *)
Fixpoint requests (t : list event) : list request :=
  match t with
  | [] => []
  | EHttp r :: t' => r :: requests t'
  | _ :: t' => requests t'
  end.

(** The messages of a trace, in order. *)
Fixpoint printed (t : list event) : list message :=
  match t with
  | [] => []
  | EPrint m :: t' => m :: printed t'
  | _ :: t' => printed t'
  end.

(** ** Program state and the monad of the script *)

Record state : Type := mkState {
  access_token : pyval;            (* publisher.access_token *)
  environ : gmap string string;    (* os.environ *)
  stdin : list string;
  trace : list event }.

Inductive outcome (A : Type) : Type :=
| Return (a : A)
| Raise (e : exn)
| SysExit (code : Z).
Arguments Return {A} a.
Arguments Raise {A} e.
Arguments SysExit {A} code.

Definition M (A : Type) : Type := state -> outcome A * state.

#[export] Instance M_ret : MRet M := fun A a st => (Return a, st).

#[export] Instance M_bind : MBind M := fun A B f c st =>
  match c st with
  | (Return a, st') => f a st'
  | (Raise e, st') => (Raise e, st')
  | (SysExit n, st') => (SysExit n, st')
  end.

Definition raise {A} (e : exn) : M A := fun st => (Raise e, st).

Definition sys_exit {A} (code : Z) : M A := fun st => (SysExit code, st).

(** [try: body except <class> as e: handler e] *)
Definition try_except {A} (body : M A) (class : exn -> bool)
    (handler : exn -> M A) : M A := fun st =>
  match body st with
  | (Raise e, st') => if class e then handler e st' else (Raise e, st')
  | r => r
  end.

Definition lift {A} (r : exn + A) : M A :=
  match r with
  | inl e => raise e
  | inr a => mret a
  end.

Definition emit (e : event) : M unit := fun st =>
  (Return tt, mkState (access_token st) (environ st) (stdin st) (trace st ++ [e])).

Definition print (m : message) : M unit := emit (EPrint m).

Definition get_token : M pyval := fun st => (Return (access_token st), st).

Definition set_token (v : pyval) : M unit := fun st =>
  (Return tt, mkState v (environ st) (stdin st) (trace st)).

Definition getenv (var : string) : M (option string) := fun st =>
  (Return (environ st !! var), st).

(** What [os.environ[key] = value] raises, if anything: [ValueError] for
    an embedded NUL character or a name with [=] in it, [OSError]
    ([Errno 22]) for an empty name. *)
Definition putenv_error (key value : string) : option exn :=
  if has_char Ascii.zero key || has_char Ascii.zero value then Some ValueError
  else if has_char "=" key then Some ValueError
  else if String.eqb key "" then Some (OSError "Invalid argument")
  else None.

(** [os.environ[key] = value] *)
Definition setenv (key value : string) : M unit := fun st =>
  match putenv_error key value with
  | Some e => (Raise e, st)
  | None =>
      (Return tt,
       mkState (access_token st) (<[key := value]> (environ st)) (stdin st) (trace st))
  end.

(** [input(prompt)] and [getpass.getpass(prompt)] *)
Definition input : M string := fun st =>
  match stdin st with
  | [] => (Raise EOFError, st)
  | a :: rest =>
      (Return a, mkState (access_token st) (environ st) rest (trace st))
  end.

(** ** ChromeWebStorePublisher *)

Record Publisher : Type := mkPublisher {
  client_id : string;
  client_secret : string;
  refresh_token : string;
  extension_id : string }.

Definition base_url : string :=
  "https://www.googleapis.com/chromewebstore/v1.1".

Definition upload_url (self : Publisher) : string :=
  "https://www.googleapis.com/upload/chromewebstore/v1.1/items/"
    ++ extension_id self.

Definition publish_url (self : Publisher) : string :=
  base_url ++ "/items/" ++ extension_id self ++ "/publish".

Definition info_url (self : Publisher) : string :=
  base_url ++ "/items/" ++ extension_id self ++ "?projection=DRAFT".

Definition token_url : string := "https://oauth2.googleapis.com/token".

Inductive Action : Type := Upload | Publish | Testers | Info | Setup.

Record Args : Type := mkArgs {
  action : Action;
  zip : option string }.

Section Script.

Variable w : World.

(** One blocking call of the [requests] library: the request is logged,
    then the world answers. *)
Definition send (r : request) : M response := fun st =>
  let st' :=
    mkState (access_token st) (environ st) (stdin st) (trace st ++ [EHttp r]) in
  match net w (requests (trace st)) r with
  | NetError d => (Raise (ConnectionError d), st')
  | NetResponse resp => (Return resp, st')
  end.

Definition raise_for_status (r : response) : M unit :=
  if ((400 <=? status_code r) && (status_code r <? 600))%Z
  then raise (HTTPError (status_code r))
  else mret tt.

Definition response_json (r : response) : M pyval :=
  match json r with
  | Some v => mret v
  | None => raise JSONDecodeError
  end.

Definition _refresh_access_token (self : Publisher) : M bool :=
  print MsgRefreshing ;;
  let data : gmap string string :=
    <["grant_type" := "refresh_token"]>
      (<["refresh_token" := refresh_token self]>
        (<["client_secret" := client_secret self]>
          (<["client_id" := client_id self]> ∅))) in
  try_except
    (response ← send (mkRequest POST token_url ∅ ∅ data None);
     raise_for_status response ;;
     token_data ← response_json response;
     token ← lift (get token_data "access_token" PyNone);
     set_token token ;;
     if truthy token
     then print MsgTokenRefreshed ;; mret true
     else print MsgNoAccessToken ;; mret false)
    is_RequestException
    (fun e => print (MsgRefreshError e) ;; mret false).

Definition _get_headers : M (gmap string header_value) :=
  token ← get_token;
  mret (<["x-goog-api-version" := Literal "2"]>
         (<["Authorization" := Bearer token]> ∅)).

(** The guard that opens the three operations:
    [not self.access_token and not self._refresh_access_token()] *)
Definition token_unavailable (self : Publisher) : M bool :=
  token ← get_token;
  if negb (truthy token)
  then ok ← _refresh_access_token self; mret (negb ok)
  else mret false.

(** [open(zip_path, 'rb')] followed by [zip_file.read()] *)
Definition read_zip (zip_path : path) : M (list Byte.byte) :=
  match zip_file w zip_path with
  | Content bytes => mret bytes
  | Unreadable e => raise e
  | Absent => raise (OSError "No such file or directory")
  end.

Definition upload_extension (self : Publisher) (zip_path : path) : M bool :=
  unavailable ← token_unavailable self;
  if unavailable : bool then mret false else
  print (MsgUploading zip_path) ;;
  try_except
    (bytes ← read_zip zip_path;
     headers ← _get_headers;
     let headers := <["Content-Type" := Literal "application/zip"]> headers in
     response ← send (mkRequest PUT (upload_url self) headers ∅ ∅ (Some bytes));
     if (status_code response =? 200)%Z then
       result ← response_json response;
       upload_state ← lift (get result "uploadState" PyNone);
       if eq_str upload_state "SUCCESS"
       then print MsgUploaded ;; mret true
       else item_error ← lift (get result "itemError" (PyStr "Unknown error"));
            print (MsgUploadFailed item_error) ;; mret false
     else
       print (MsgHttpError (status_code response) (text response)) ;;
       mret false)
    is_Exception
    (fun e => print (MsgUploadError e) ;; mret false).

Definition publish_extension (self : Publisher) (target : string) : M bool :=
  unavailable ← token_unavailable self;
  if unavailable : bool then mret false else
  print (MsgPublishing target) ;;
  try_except
    (headers ← _get_headers;
     let headers := <["Content-Length" := Literal "0"]> headers in
     let params : gmap string string :=
       if String.eqb target "testers"
       then <["publishTarget" := "trustedTesters"]> ∅
       else ∅ in
     response ← send (mkRequest POST (publish_url self) headers params ∅ None);
     if (status_code response =? 200)%Z then
       result ← response_json response;
       status ← lift (get result "status" (PyList []));
       ok ← lift (contains status "OK");
       if ok : bool
       then print MsgPublished ;; mret true
       else print (MsgPublishFailed status) ;; mret false
     else
       print (MsgHttpError (status_code response) (text response)) ;;
       mret false)
    is_Exception
    (fun e => print (MsgPublishError e) ;; mret false).

(** Returns the parsed document, or [PyNone] for Python's [None]. *)
Definition get_extension_info (self : Publisher) : M pyval :=
  unavailable ← token_unavailable self;
  if unavailable : bool then mret PyNone else
  print MsgFetchingInfo ;;
  try_except
    (headers ← _get_headers;
     response ← send (mkRequest GET (info_url self) headers ∅ ∅ None);
     if (status_code response =? 200)%Z then
       response_json response
     else
       print (MsgHttpError (status_code response) (text response)) ;;
       mret PyNone)
    is_Exception
    (fun e => print (MsgInfoError e) ;; mret PyNone).

(** ** Credential bootstrap and project discovery *)

Definition get_project_info : M pyval :=
  if negb (file_exists (package_json w)) then
    print MsgNoPackageJson ;; sys_exit 1
  else
    try_except
      (pkg_data ← match package_json w with
                  | Content v => mret v
                  | Unreadable e => raise e
                  | Absent => raise (OSError "No such file or directory")
                  end;
       lift (get pkg_data "version" (PyStr "1.0.0")))
      is_Exception
      (fun e => print (MsgPackageJsonError e) ;; sys_exit 1).

Definition find_extension_zip (version : pyval) : M path :=
  let zip_file_path := BuildsZip version in
  if negb (file_exists (zip_file w zip_file_path)) then
    print (MsgPackageNotFound zip_file_path) ;; sys_exit 1
  else mret zip_file_path.

(** The body of [for line in f] in [load_env_file]. *)
Fixpoint load_env_lines (lines : list string) : M unit :=
  match lines with
  | [] => mret tt
  | line :: rest =>
      let line := strip line in
      (if negb (String.eqb line "") && negb (startswith line "#")
            && has_char "=" line
       then match split1 "=" line with
            | Some (key, value) => setenv (strip key) (strip value)
            | None => raise ValueError
            end
       else mret tt) ;;
      load_env_lines rest
  end.

Definition load_env_file : M bool :=
  if file_exists (env_file w) then
    print MsgLoadingEnv ;;
    try_except
      (lines ← match env_file w with
               | Content l => mret l
               | Unreadable e => raise e
               | Absent => raise (OSError "No such file or directory")
               end;
       load_env_lines lines ;;
       mret true)
      is_Exception
      (fun e => print (MsgEnvError e) ;; mret false)
  else mret false.

Definition required_vars : list string :=
  ["CWS_CLIENT_ID"; "CWS_CLIENT_SECRET"; "CWS_REFRESH_TOKEN"; "CWS_EXTENSION_ID"].

(** [not value] for the [Optional[str]] that [os.getenv] returns. *)
Definition is_missing (value : option string) : bool :=
  match value with
  | None => true
  | Some s => String.eqb s ""
  end.

(** The loop of [get_env_vars]: the names found missing and the values
    collected ([value or ""]), both in the order of [vars]. *)
Fixpoint scan_vars (vars : list string) : M (list string * list string) :=
  match vars with
  | [] => mret ([], [])
  | var :: rest =>
      value ← getenv var;
      '(missing_vars, values) ← scan_vars rest;
      mret (if is_missing value then var :: missing_vars else missing_vars,
            (if is_missing value then "" else default "" value) :: values)
  end.

Definition get_env_vars : M (list string) :=
  load_env_file ;;
  '(missing_vars, values) ← scan_vars required_vars;
  match missing_vars with
  | _ :: _ => print (MsgMissingCredentials missing_vars) ;; sys_exit 1
  | [] => mret values
  end.

(** ** The setup wizard *)

Definition newline : string := String (ascii_of_nat 10) EmptyString.

Definition run_setup_wizard : M unit :=
  print MsgWizardBanner ;;
  proceed ← (if file_exists (env_file w) then
               print MsgExistingEnv ;;
               answer ← input;
               let overwrite := lower (strip answer) in
               if String.eqb overwrite "y" || String.eqb overwrite "yes"
               then mret true
               else print MsgSetupCancelled ;; mret false
             else mret true);
  if proceed : bool then
    print MsgSetupGuide ;;
    print MsgCollect ;;
    id ← input;
    secret ← input;
    token ← input;
    ext ← input;
    let '(id, secret, token, ext) :=
      (strip id, strip secret, strip token, strip ext) in
    if String.eqb id "" || String.eqb secret "" || String.eqb token ""
         || String.eqb ext ""
    then print MsgAllRequired
    else
      try_except
        ((if env_file_writable w then
            emit (EWriteEnvFile
              ["# Chrome Web Store API Credentials" ++ newline;
               "# Generated by setup wizard on " ++ strip (date w) ++ newline;
               "# Do not commit this file to version control!" ++ newline;
               newline;
               "CWS_CLIENT_ID=" ++ id ++ newline;
               "CWS_CLIENT_SECRET=" ++ secret ++ newline;
               "CWS_REFRESH_TOKEN=" ++ token ++ newline;
               "CWS_EXTENSION_ID=" ++ ext ++ newline])
          else raise (OSError "Permission denied")) ;;
         print MsgSaved ;;
         gitignore_content ← match gitignore w with
                             | Absent => mret ""
                             | Content s => mret s
                             | Unreadable e => raise e
                             end;
         (if negb (substring_in ".env.cws" gitignore_content) then
            (if gitignore_writable w then
               emit (EAppendGitignore
                 ((if negb (String.eqb gitignore_content "")
                      && negb (endswith gitignore_content newline)
                   then [newline] else [])
                  ++ [".env.cws" ++ newline]))
             else raise (OSError "Permission denied")) ;;
            print MsgGitignoreAdded
          else mret tt) ;;
         print MsgSetupComplete)
        is_Exception
        (fun e => print (MsgSaveError e))
  else mret tt.

(** ** The CLI driver *)

(** [a and b] on the results of two calls: [b] runs only if [a] is true. *)
Definition and_then (a b : M bool) : M bool :=
  x ← a; if x : bool then b else mret false.

Definition main (args : Args) : M unit :=
  match action args with
  | Setup => run_setup_wizard
  | act =>
      credentials ← get_env_vars;
      match credentials with
      | [client_id; client_secret; refresh_token; extension_id] =>
          version ← get_project_info;
          zip_path ← match zip args with
                     | Some z =>
                         if negb (String.eqb z "") then
                           if negb (file_exists (zip_file w (ArgPath z)))
                           then print (MsgZipNotFound (ArgPath z)) ;; sys_exit 1
                           else mret (ArgPath z)
                         else find_extension_zip version
                     | None => find_extension_zip version
                     end;
          let publisher :=
            mkPublisher client_id client_secret refresh_token extension_id in
          print (MsgBanner extension_id zip_path version) ;;
          match act with
          | Info =>
              info ← get_extension_info publisher;
              if truthy info then
                title ← lift (get info "title" (PyStr "Unknown"));
                status ← lift (get info "status" (PyStr "Unknown"));
                version ← lift (get info "version" (PyStr "Unknown"));
                print (MsgInfo title status version)
              else mret tt
          | Upload =>
              ok ← upload_extension publisher zip_path;
              if ok : bool then print MsgUploadDone else sys_exit 1
          | Publish =>
              ok ← and_then (upload_extension publisher zip_path)
                            (publish_extension publisher "default");
              if ok : bool then print MsgPublishDone else sys_exit 1
          | Testers =>
              ok ← and_then (upload_extension publisher zip_path)
                            (publish_extension publisher "testers");
              if ok : bool then print MsgTestersDone else sys_exit 1
          | Setup => mret tt
          end
      | _ => raise ValueError
      end
  end.

Definition initial_state : state :=
  mkState PyNone (initial_environ w) (keyboard w) [].

(** The exit status of the interpreter: 0 when [main] returns, the
    argument of [sys.exit], 1 for an uncaught exception. *)
Definition exit_status {A} (o : outcome A) : Z :=
  match o with
  | Return _ => 0
  | Raise _ => 1
  | SysExit code => code
  end.

(** One run of the program: exit status and trace. *)
Definition run (args : Args) : Z * list event :=
  let '(o, st) := main args initial_state in
  (exit_status o, trace st).

End Script.

(** * Specification vocabulary *)

#[local] Open Scope list_scope.

(** ** The four requests of the client *)

Definition token_request (self : Publisher) : request :=
  mkRequest POST token_url ∅ ∅
    (<["grant_type" := "refresh_token"]>
      (<["refresh_token" := refresh_token self]>
        (<["client_secret" := client_secret self]>
          (<["client_id" := client_id self]> ∅)))) None.

Definition auth_headers (token : pyval) : gmap string header_value :=
  <["x-goog-api-version" := Literal "2"]> (<["Authorization" := Bearer token]> ∅).

Definition upload_request (self : Publisher) (token : pyval)
    (bytes : list Byte.byte) : request :=
  mkRequest PUT (upload_url self)
    (<["Content-Type" := Literal "application/zip"]> (auth_headers token))
    ∅ ∅ (Some bytes).

Definition publish_params (target : string) : gmap string string :=
  if String.eqb target "testers"
  then <["publishTarget" := "trustedTesters"]> ∅
  else ∅.

Definition publish_request (self : Publisher) (token : pyval)
    (target : string) : request :=
  mkRequest POST (publish_url self)
    (<["Content-Length" := Literal "0"]> (auth_headers token))
    (publish_params target) ∅ None.

Definition info_request (self : Publisher) (token : pyval) : request :=
  mkRequest GET (info_url self) (auth_headers token) ∅ ∅ None.

(** An operation that, started in [st], ended with outcome [o] after
    appending [t] to the trace. *)
Definition ends_with {A} (res : outcome A * state) (st : state)
    (o : outcome A) (t : list event) : Prop :=
  fst res = o /\ trace (snd res) = trace st ++ t.

(** ** Reading the replies *)

(** A field of the reply body, when the body is a JSON object. *)
Definition body_field (r : response) (key : string) : option pyval :=
  match json r with
  | Some (PyDict d) => d !! key
  | _ => None
  end.

(** What [upload_extension] prints when it does not succeed. *)
Definition upload_diagnostic (r : response) : message :=
  if (status_code r =? 200)%Z then
    match json r with
    | Some (PyDict d) =>
        MsgUploadFailed (default (PyStr "Unknown error") (d !! "itemError"))
    | Some _ => MsgUploadError AttributeError
    | None => MsgUploadError JSONDecodeError
    end
  else MsgHttpError (status_code r) (text r).

(** The upload claim as the specification words it: success exactly for
    a 200 reply with [uploadState] equal to ["SUCCESS"], and otherwise
    failure after printing the [itemError] detail of the body. *)
Definition upload_reports_item_error (w : World) (self : Publisher)
    (zip_path : path) (st : state) : Prop :=
  forall st1 bytes r,
    token_unavailable w self st = (Return false, st1) ->
    zip_file w zip_path = Content bytes ->
    net w (requests (trace st1))
      (upload_request self (access_token st1) bytes) = NetResponse r ->
    exists b st',
      upload_extension w self zip_path st = (Return b, st') /\
      (b = true <->
         status_code r = 200%Z /\
         body_field r "uploadState" = Some (PyStr "SUCCESS")) /\
      (b = false ->
         last (printed (trace st')) =
           Some (MsgUploadFailed
                   (default (PyStr "Unknown error") (body_field r "itemError")))).

(** The publish claim as the specification words it: for a reply with
    status 200, success exactly when the body's [status] is a list that
    contains the string ["OK"]. *)
Definition publish_succeeds_iff_listed (w : World) (self : Publisher)
    (target : string) (st : state) : Prop :=
  forall st1 r,
    token_unavailable w self st = (Return false, st1) ->
    net w (requests (trace st1))
      (publish_request self (access_token st1) target) = NetResponse r ->
    status_code r = 200%Z ->
    exists b st',
      publish_extension w self target st = (Return b, st') /\
      (b = true <->
         exists l, body_field r "status" = Some (PyList l) /\ In (PyStr "OK") l).

(** ["OK"] is found in the [status] field of the reply the way Python's
    [in] finds it: as an element of a list, inside a text, or as a key of
    an object. *)
Definition status_has_ok (r : response) : Prop :=
  match body_field r "status" with
  | Some (PyList l) => In (PyStr "OK") l
  | Some (PyStr s) => substring_in "OK" s = true
  | Some (PyDict d) => is_Some (d !! "OK")
  | _ => False
  end.

(** What [publish_extension] prints after a reply with status 200. *)
Definition publish_diagnostic (r : response) : message :=
  match json r with
  | Some (PyDict d) =>
      match default (PyList []) (d !! "status") with
      | PyNone | PyBool _ | PyInt _ | PyFloat _ => MsgPublishError TypeError
      | status => MsgPublishFailed status
      end
  | Some _ => MsgPublishError AttributeError
  | None => MsgPublishError JSONDecodeError
  end.

(** [response.raise_for_status()] raises for this reply. *)
Definition is_error_status (r : response) : bool :=
  ((400 <=? status_code r) && (status_code r <? 600))%Z.

(** A token reply that [_refresh_access_token] turns into [False] when
    it grants nothing: an error status, a body that is not JSON, or a
    JSON object. *)
Definition reply_handled (r : response) : Prop :=
  is_error_status r = true \/ json r = None \/ exists d, json r = Some (PyDict d).

(** ** Credentials *)

(** The environment once [load_env_file] has run at start-up. *)
Definition loaded_environ (w : World) : gmap string string :=
  environ (snd (load_env_file w (initial_state w))).

(** Some required credential is unset or empty in [env]. *)
Definition credentials_missing (env : gmap string string) : Prop :=
  exists var, In var required_vars /\ is_missing (env !! var) = true.

(** What [load_env_file] can print. *)
Definition env_prints (pr : list event) : Prop :=
  pr = [] \/ pr = [EPrint MsgLoadingEnv] \/
  exists e, pr = [EPrint MsgLoadingEnv; EPrint (MsgEnvError e)].

(** [--zip] was given a non-empty path ([if args.zip:]). *)
Definition zip_given (args : Args) : bool :=
  match zip args with
  | Some z => negb (String.eqb z "")
  | None => false
  end.

(** ** Observations on a run *)

Definition is_token_request (r : request) : bool :=
  String.eqb (req_url r) token_url.

(** An authorized call carries the bearer token. *)
Definition is_authorized (r : request) : bool :=
  match req_headers r !! "Authorization" with
  | Some _ => true
  | None => false
  end.

(** The publish call is the script's only authorized POST: the token
    request carries no [Authorization] header, the upload is a PUT and
    the info call a GET. *)
Definition is_publish_call (r : request) : bool :=
  match req_method r with
  | POST => is_authorized r
  | _ => false
  end.

Definition is_testers (act : Action) : bool :=
  match act with Testers => true | _ => false end.

Definition tester_params : gmap string string :=
  <["publishTarget" := "trustedTesters"]> ∅.

Definition method_eqb (m1 m2 : method) : bool :=
  match m1, m2 with
  | GET, GET | POST, POST | PUT, PUT => true
  | _, _ => false
  end.

(** Two requests hit the same endpoint. *)
Definition same_endpoint (r1 r2 : request) : bool :=
  method_eqb (req_method r1) (req_method r2)
  && String.eqb (req_url r1) (req_url r2).

(** *** Checks on the requests and the trace of a run *)

(** Every authorized request comes after a token request. *)
Fixpoint refresh_precedes (seen : bool) (rs : list request) : bool :=
  match rs with
  | [] => true
  | r :: rs' =>
      (if is_authorized r then seen else true)
      && refresh_precedes (seen || is_token_request r) rs'
  end.

(** Every publish call comes after the success message of the upload. *)
Fixpoint publish_guarded (uploaded : bool) (t : list event) : bool :=
  match t with
  | [] => true
  | EPrint MsgUploaded :: t' => publish_guarded true t'
  | EHttp r :: t' =>
      (if is_publish_call r then uploaded else true)
      && publish_guarded uploaded t'
  | _ :: t' => publish_guarded uploaded t'
  end.

(** The query parameters of every request are those the action allows. *)
Definition params_allowed (act : Action) (r : request) : bool :=
  bool_decide (req_params r =
               if is_publish_call r && is_testers act then tester_params else ∅).

(** No endpoint is called twice. *)
Fixpoint no_retry (rs : list request) : bool :=
  match rs with
  | [] => true
  | r :: rs' => forallb (fun r' => negb (same_endpoint r r')) rs' && no_retry rs'
  end.

Definition mentions_upload_success (t : list event) : bool :=
  existsb (fun e => match e with EPrint MsgUploaded => true | _ => false end) t.

Definition mentions_lookup_failure (t : list event) : bool :=
  existsb (fun e => match e with EPrint (MsgPackageNotFound _) => true
                              | _ => false end) t.

(** For the publishing actions, a run without a successful upload ends
    with status 1 and without a publish call. *)
Definition upload_gates_publish (act : Action) (code : Z) (t : list event) : bool :=
  match act with
  | Publish | Testers =>
      mentions_upload_success t
      || ((code =? 1)%Z && negb (existsb is_publish_call (requests t)))
  | _ => true
  end.

Definition mentions_done (t : list event) : bool :=
  existsb (fun e => match e with
                    | EPrint MsgUploadDone | EPrint MsgPublishDone
                    | EPrint MsgTestersDone => true
                    | _ => false
                    end) t.

(** For the three actions that change the store, the exit status is 0
    when the closing success line was printed and 1 otherwise. *)
Definition exit_reports_outcome (act : Action) (code : Z) (t : list event) : bool :=
  match act with
  | Upload | Publish | Testers =>
      (code =? (if mentions_done t then 0 else 1))%Z
  | _ => true
  end.

Definition mentions_banner (t : list event) : bool :=
  existsb (fun e => match e with EPrint (MsgBanner _ _ _) => true
                              | _ => false end) t.

(** A run that reaches its action (the banner is printed) opens with the
    token request; a run that does not sends nothing. *)
Definition refresh_opens (t : list event) : bool :=
  match requests t with
  | [] => negb (mentions_banner t)
  | r :: _ => mentions_banner t && is_token_request r
  end.

(** For the two publishing actions, a successful upload is followed by
    the publish call: one call, with the parameters of the action. *)
Definition publish_call_made (act : Action) (t : list event) : bool :=
  match act with
  | Publish | Testers =>
      if mentions_upload_success t then
        match filter (fun r => is_publish_call r = true) (requests t) with
        | [r] => bool_decide (req_params r =
                              if is_testers act then tester_params else ∅)
        | _ => false
        end
      else true
  | _ => true
  end.

(** All the checks of one run. *)
Definition audit (args : Args) (res : Z * list event) : bool :=
  let '(code, t) := res in
  refresh_precedes false (requests t)
  && publish_guarded false t
  && forallb (params_allowed (action args)) (requests t)
  && Nat.leb (length (filter (fun r => is_publish_call r = true) (requests t))) 1
  && no_retry (requests t)
  && upload_gates_publish (action args) code t
  && exit_reports_outcome (action args) code t
  && (if zip_given args then negb (mentions_lookup_failure t) else true)
  && refresh_opens t
  && publish_call_made (action args) t.

(** *** The same observations as propositions *)

(** Every authorized request is preceded by a token request. *)
Definition refresh_first (rs : list request) : Prop :=
  forall i r, rs !! i = Some r -> is_authorized r = true ->
    exists j r0, (j < i)%nat /\ rs !! j = Some r0 /\ is_token_request r0 = true.

(** Every publish call is preceded by the success message that
    [upload_extension] prints just before it returns [True]. *)
Definition publish_follows_upload (t : list event) : Prop :=
  forall i r, t !! i = Some (EHttp r) -> is_publish_call r = true ->
    exists j, (j < i)%nat /\ t !! j = Some (EPrint MsgUploaded).

(** No two requests of the list hit the same endpoint. *)
Definition never_retried (rs : list request) : Prop :=
  forall i j r1 r2, (i < j)%nat -> rs !! i = Some r1 -> rs !! j = Some r2 ->
    same_endpoint r1 r2 = false.

(** An operation started in [st] appended a trace whose requests
    satisfy [P]. *)
Definition appends {A} (res : outcome A * state) (st : state)
    (P : list request -> Prop) : Prop :=
  exists t, trace (snd res) = trace st ++ t /\ P (requests t).

(** The requests open with the token request of the publisher, and
    every authorized request comes after a token request. *)
Definition refreshed_first (self : Publisher) (rs : list request) : Prop :=
  (exists rest, rs = token_request self :: rest) /\ refresh_first rs.

(** The token reply, if it is JSON at all, is a JSON object. *)
Definition token_reply_is_object (w : World) (self : Publisher)
    (st : state) : Prop :=
  forall r v, net w (requests (trace st)) (token_request self) = NetResponse r ->
    json r = Some v -> exists d, v = PyDict d.

(** An operation returned, rather than raised or exited. *)
Definition returns {A} (res : outcome A * state) : Prop :=
  exists a, fst res = Return a.

(** ** Vocabulary for the operations *)

(** The token a reply of the token endpoint grants: the status is not an
    error status and the body is a JSON object whose [access_token] is
    truthy. *)
Definition reply_grants (r : response) (token : pyval) : Prop :=
  ((400 <=? status_code r) && (status_code r <? 600))%Z = false /\
  body_field r "access_token" = Some token /\
  truthy token = true.

(** A value that Python cannot iterate or search with [in]. *)
Definition not_iterable (v : pyval) : Prop :=
  match v with
  | PyNone | PyBool _ | PyInt _ | PyFloat _ => True
  | _ => False
  end.

(** ** Vocabulary for the credential file *)

(** What a line of [.env.cws] assigns: nothing for a blank line, a
    comment or a line without [=]; otherwise the stripped text before the
    first [=] gets the stripped text after it. *)
Definition assignment (line : string) : option (string * string) :=
  let line := strip line in
  if negb (String.eqb line "") && negb (startswith line "#")
       && has_char "=" line
  then match split1 "=" line with
       | Some (key, value) => Some (strip key, strip value)
       | None => None
       end
  else None.

(** A name and a value that [os.environ] accepts. *)
Definition accepted (key value : string) : Prop :=
  putenv_error key value = None.

(** The text begins with a white space character. *)
Definition starts_space (s : string) : bool :=
  match s with
  | String a s1 =>
      isspace1 a
      || match s1 with
         | String b s2 =>
             isspace2 a b
             || match s2 with
                | String c _ => isspace3 a b c
                | EmptyString => false
                end
         | EmptyString => false
         end
  | EmptyString => false
  end.

(** An ASCII character that is not white space: it is a character of
    its own, and no part of a longer one. *)
Definition plain (a : ascii) : bool :=
  (N_of_ascii a <? 128)%N && negb (isspace1 a).

Fixpoint all_plain (s : string) : bool :=
  match s with
  | String a s' => plain a && all_plain s'
  | EmptyString => true
  end.

(** No line of [lines] assigns [var]. *)
Definition unassigned (var : string) (lines : list string) : Prop :=
  forall line value, In line lines -> assignment line <> Some (var, value).

(** ** Vocabulary for the setup wizard *)

(** What the wizard writes to [.env.cws], one [f.write] call per item. *)
Definition credential_file (date id secret token ext : string) : list string :=
  ["# Chrome Web Store API Credentials" ++ newline;
   "# Generated by setup wizard on " ++ date ++ newline;
   "# Do not commit this file to version control!" ++ newline;
   newline;
   "CWS_CLIENT_ID=" ++ id ++ newline;
   "CWS_CLIENT_SECRET=" ++ secret ++ newline;
   "CWS_REFRESH_TOKEN=" ++ token ++ newline;
   "CWS_EXTENSION_ID=" ++ ext ++ newline]%string.

(** A text that is one line of a file: no line break inside. *)
Definition one_line (s : string) : Prop :=
  has_char (ascii_of_nat 10) s = false /\ has_char (ascii_of_nat 13) s = false.

(** An answer typed at a prompt that the wizard can keep: once stripped
    it is not empty, it is one line, and it is free of the NUL character
    that [os.environ] refuses. *)
Definition usable (answer : string) : Prop :=
  strip answer <> "" /\ one_line (strip answer) /\
  has_char Ascii.zero (strip answer) = false.

(** The answers the wizard waits for: the one to the overwrite question
    when [.env.cws] exists, and the four credentials unless that answer
    declines. *)
Definition answers_wanted (w : World) : nat :=
  if file_exists (env_file w) then
    match keyboard w with
    | answer :: _ =>
        if String.eqb (lower (strip answer)) "y"
           || String.eqb (lower (strip answer)) "yes"
        then 5 else 1
    | [] => 1
    end
  else 4.

(** ** The requests of a whole run *)

(** The publisher that [main] builds from the loaded environment. *)
Definition built_from (env : gmap string string) (self : Publisher) : Prop :=
  env !! "CWS_CLIENT_ID" = Some (client_id self) /\
  env !! "CWS_CLIENT_SECRET" = Some (client_secret self) /\
  env !! "CWS_REFRESH_TOKEN" = Some (refresh_token self) /\
  env !! "CWS_EXTENSION_ID" = Some (extension_id self).

(** The authorized requests an action may add once the token request
    has been answered: the info call; or the upload of the bytes of the
    ZIP, followed for the two publishing actions by the publish call with
    the target of the action. *)
Definition authorized_plan (w : World) (act : Action) (self : Publisher)
    (token : pyval) (rs : list request) : Prop :=
  (act = Info /\ rs = [info_request self token]) \/
  exists zip_path bytes,
    zip_file w zip_path = Content bytes /\
    ((act <> Info /\ rs = [upload_request self token bytes]) \/
     (act = Publish /\
      rs = [upload_request self token bytes;
            publish_request self token "default"]) \/
     (act = Testers /\
      rs = [upload_request self token bytes;
            publish_request self token "testers"])).

(** Every list of requests a run can make: none; or the token request
    alone; or the token request, granted, followed by the authorized
    requests of the action, which carry the granted token. *)
Definition run_plan (w : World) (act : Action) (rs : list request) : Prop :=
  rs = [] \/
  exists self,
    built_from (loaded_environ w) self /\
    (rs = [token_request self] \/
     exists r token rest,
       net w [] (token_request self) = NetResponse r /\
       reply_grants r token /\
       authorized_plan w act self token rest /\
       rs = token_request self :: rest).

(** ** Sample worlds *)

Module Sample.

Definition self : Publisher := mkPublisher "id" "secret" "refresh" "ext".

Definition credentials : gmap string string :=
  <["CWS_CLIENT_ID" := "id"]>
    (<["CWS_CLIENT_SECRET" := "secret"]>
      (<["CWS_REFRESH_TOKEN" := "refresh"]>
        (<["CWS_EXTENSION_ID" := "ext"]> ∅))).

Definition object (fields : list (string * pyval)) : pyval :=
  PyDict (list_to_map fields).

(** A reply whose body is the JSON document [doc]. *)
Definition reply (status : Z) (doc : pyval) : response :=
  mkResponse status "" (Some doc).

(** A reply whose body is not JSON. *)
Definition plain (status : Z) (body : string) : response :=
  mkResponse status body None.

(** A network that answers by endpoint. *)
Definition answers (token upload publish info : response)
    (sent : list request) (r : request) : net_result :=
  NetResponse
    (if is_token_request r then token
     else match req_method r with
          | PUT => upload
          | POST => publish
          | GET => info
          end).

Definition token_granted : response :=
  reply 200 (object [("access_token", PyStr "ya29"); ("expires_in", PyInt 3599)]).

Definition upload_accepted : response :=
  reply 200 (object [("uploadState", PyStr "SUCCESS")]).

Definition publish_ok : response :=
  reply 200 (object [("status", PyList [PyStr "OK"])]).

Definition item_info : response :=
  reply 200 (object [("title", PyStr "Eksi Arti"); ("version", PyStr "1.2.3")]).

Definition package : file_state pyval :=
  Content (object [("name", PyStr "eksi-arti"); ("version", PyStr "1.2.3")]).

Definition zip_bytes : list Byte.byte := [Byte.x50; Byte.x4b; Byte.x03; Byte.x04].

Definition built : path := BuildsZip (PyStr "1.2.3").

(** A project with credentials in the environment, a [package.json]
    and a built package, in front of the network [network]. *)
Definition project (network : list request -> request -> net_result) : World :=
  mkWorld network credentials Absent package (fun _ => Content zip_bytes)
    [] true Absent true "".

Definition happy : World :=
  project (answers token_granted upload_accepted publish_ok item_info).

Definition quote : string := String (ascii_of_nat 34) EmptyString.

(** The store rejects the package with status 500 and a JSON body that
    carries an [itemError]. *)
Definition rejected_body : string :=
  ("{" ++ quote ++ "uploadState" ++ quote ++ ":" ++ quote ++ "FAILURE"
     ++ quote ++ "," ++ quote ++ "itemError" ++ quote ++ ":[{" ++ quote
     ++ "error_detail" ++ quote ++ ":" ++ quote ++ "bad manifest" ++ quote
     ++ "}]}")%string.

Definition rejected_doc : pyval :=
  object [("uploadState", PyStr "FAILURE");
          ("itemError",
           PyList [object [("error_detail", PyStr "bad manifest")]])].

Definition rejected : response :=
  mkResponse 500 rejected_body (Some rejected_doc).

Definition upload_rejected_500 : World :=
  project (answers token_granted
             rejected
             publish_ok item_info).

(** The store is down: status 503 and a body that is not JSON. *)
Definition upload_unavailable_503 : World :=
  project (answers token_granted (plain 503 "Service Unavailable")
             publish_ok item_info).

(** The token endpoint answers with a JSON object without a token. *)
Definition token_fields : gmap string pyval :=
  list_to_map [("token_type", PyStr "Bearer")].

Definition no_token_field : World :=
  project (answers (reply 200 (PyDict token_fields))
             upload_accepted publish_ok item_info).

(** The token endpoint answers 200 with the JSON document [[]]. *)
Definition token_reply_array : World :=
  project (answers (reply 200 (PyList [])) upload_accepted publish_ok item_info).

(** The token endpoint answers 200 with the JSON document [null]. *)
Definition token_reply_null : World :=
  project (answers (reply 200 PyNone) upload_accepted publish_ok item_info).

(** The info call fails with status 500. *)
Definition info_fails : World :=
  project (answers token_granted upload_accepted publish_ok
             (plain 500 "Internal Server Error")).

(** No credentials anywhere. *)
Definition no_credentials : World :=
  mkWorld (answers token_granted upload_accepted publish_ok item_info)
    ∅ Absent package (fun _ => Content zip_bytes) [] true Absent true "".

(** Credentials and a ZIP, but no [package.json]. *)
Definition no_package_json : World :=
  mkWorld (answers token_granted upload_accepted publish_ok item_info)
    credentials Absent Absent (fun _ => Content zip_bytes) [] true Absent true "".

(** Credentials in [.env.cws] only, among a comment, a blank line and
    a line without [=]. *)
Definition env_lines : list string :=
  ["# Chrome Web Store API Credentials" ++ newline;
   newline;
   "CWS_CLIENT_ID = id" ++ newline;
   "CWS_CLIENT_SECRET=s=cret" ++ newline;
   "not a setting" ++ newline;
   "CWS_REFRESH_TOKEN=refresh" ++ newline;
   "  CWS_EXTENSION_ID=ext"]%string.

Definition from_env_file : World :=
  mkWorld (answers token_granted upload_accepted publish_ok item_info)
    ∅ (Content env_lines) package (fun _ => Content zip_bytes)
    [] true Absent true "".

(** A state in which a token is already held. *)
Definition holding (w : World) : state :=
  mkState (PyStr "ya29") (initial_environ w) (keyboard w) [].

(** No network. *)
Definition offline : World :=
  project (fun _ _ => NetError "Connection refused").

(** A project that was never packed. *)
Definition no_zip : World :=
  mkWorld (answers token_granted upload_accepted publish_ok item_info)
    credentials Absent package (fun _ => Absent) [] true Absent true "".

(** The publish reply carries its status as a text, not as a list. *)
Definition status_as_text : response :=
  reply 200 (object [("status", PyStr "NOT_OK")]).

Definition publish_text : World :=
  project (answers token_granted upload_accepted status_as_text item_info).

(** A fresh project and four answers at the keyboard. *)
Definition wizard : World :=
  mkWorld (answers token_granted upload_accepted publish_ok item_info)
    ∅ Absent package (fun _ => Content zip_bytes)
    [" id "; "secret"; "refresh"; "ext "] true Absent true "Mon Jan  1".

(** The next run, over the file the wizard has written. *)
Definition after_wizard : World :=
  mkWorld (answers token_granted upload_accepted publish_ok item_info)
    ∅ (Content (credential_file "Mon Jan  1" (strip " id ") (strip "secret")
                  (strip "refresh") (strip "ext ")))
    package (fun _ => Content zip_bytes) [] true Absent true "".

(** An existing [.env.cws] and a user who answers no. *)
Definition keeps_file : World :=
  mkWorld (answers token_granted upload_accepted publish_ok item_info)
    ∅ (Content env_lines) package (fun _ => Content zip_bytes)
    [" No "] true Absent true "".

(** U+00A0, the no-break space, and U+3000, the ideographic space. *)
Definition nbsp : string := String "194" (String "160" EmptyString).

Definition wide_space : string :=
  String "227" (String "128" (String "128" EmptyString)).

(** U+00E0, a letter whose second byte is the second byte of U+00A0. *)
Definition a_grave : string := String "195" (String "160" EmptyString).

(** An existing [.env.cws] and a user who answers yes, with a no-break
    space behind it, and then hangs up. *)
Definition hangs_up : World :=
  mkWorld (answers token_granted upload_accepted publish_ok item_info)
    ∅ (Content env_lines) package (fun _ => Content zip_bytes)
    [("Y" ++ nbsp)%string; "id"; "secret"] true Absent true "".

(** An existing [.env.cws] and a user who answers [y] with a no-break
    space behind it, then gives the four credentials. *)
Definition overwrites : World :=
  mkWorld (answers token_granted upload_accepted publish_ok item_info)
    ∅ (Content env_lines) package (fun _ => Content zip_bytes)
    [("y" ++ nbsp)%string; "id"; (nbsp ++ "secret")%string; "refresh"; "ext"]
    true Absent true "Mon Jan  1".

(** The version was raised after the last build: only the package of
    version 1.2.2 is there. *)
Definition stale_build : World :=
  mkWorld (answers token_granted upload_accepted publish_ok item_info)
    credentials Absent package
    (fun p => match p with
              | BuildsZip v =>
                  if eq_str v "1.2.2" then Content zip_bytes else Absent
              | ArgPath _ => Absent
              end)
    [] true Absent true "".

(** The state an operation is in once its guard has fetched a token. *)
Definition after_refresh (w : World) : state :=
  snd (token_unavailable w self (initial_state w)).

End Sample.

(** * Properties *)

Lemma requests_app (t1 t2 : list event) :
  requests (t1 ++ t2) = requests t1 ++ requests t2.
Proof.
  induction t1 as [|e t1 IH]; [reflexivity|].
  destruct e; simpl; rewrite IH; reflexivity.
Qed.

Lemma printed_app (t1 t2 : list event) :
  printed (t1 ++ t2) = printed t1 ++ printed t2.
Proof.
  induction t1 as [|e t1 IH]; [reflexivity|].
  destruct e; simpl; rewrite IH; reflexivity.
Qed.

Lemma requests_snoc_print (t : list event) (m : message) :
  requests (t ++ [EPrint m]) = requests t.
Proof. rewrite requests_app. apply app_nil_r. Qed.

Lemma requests_snoc_http (t : list event) (r : request) :
  requests (t ++ [EHttp r]) = requests t ++ [r].
Proof. apply requests_app. Qed.

Lemma eq_str_true (v : pyval) (s : string) :
  eq_str v s = true <-> v = PyStr s.
Proof.
  destruct v; simpl; try (split; [discriminate | congruence]).
  rewrite String.eqb_eq. split; congruence.
Qed.

Lemma existsb_eq_str (l : list pyval) (s : string) :
  existsb (fun x => eq_str x s) l = true <-> In (PyStr s) l.
Proof.
  rewrite existsb_exists. split.
  - intros (x & Hin & Heq). apply eq_str_true in Heq. congruence.
  - intros Hin. exists (PyStr s). split; [assumption|]. now apply eq_str_true.
Qed.

(** Symbolic execution of the script: unfold the monad, then split on
    whatever the world answers. *)
Ltac unfold_script :=
  unfold upload_extension, publish_extension, get_extension_info,
    token_unavailable, _refresh_access_token, _get_headers, read_zip,
    response_json, raise_for_status, and_then, send, print, emit, lift,
    get_token, set_token, raise, sys_exit, try_except, mbind, mret,
    M_bind, M_ret, is_Exception, get, contains,
    token_request, upload_request, publish_request, info_request,
    auth_headers, publish_params in *.

Ltac script_simpl :=
  cbn [access_token environ stdin trace fst snd is_RequestException
       status_code text json negb String.eqb Ascii.eqb Bool.eqb andb orb
       action zip file_exists] in *;
  rewrite ?requests_snoc_print in *.

Ltac stuck_scrutinee x :=
  lazymatch x with
  | context [match _ with _ => _ end] => fail
  | _ => idtac
  end.

Ltac exec_step :=
  match goal with
  | |- context [file_exists ?f] => destruct f eqn:?
  | |- context [match ?x with _ => _ end] =>
      stuck_scrutinee x; destruct x eqn:?
  end.

(** A token found truthy (or not) by one guard is not examined again by
    the next. *)
Ltac reuse_answers :=
  repeat match goal with
         | H : truthy ?v = _ |- context [truthy ?v] => rewrite H
         end.

Ltac goal_simpl :=
  cbn [access_token environ stdin trace fst snd is_RequestException
       status_code text json negb String.eqb Ascii.eqb Bool.eqb andb orb
       action zip file_exists];
  rewrite ?requests_snoc_print.

Ltac exec :=
  goal_simpl; repeat (exec_step; goal_simpl; reuse_answers; goal_simpl).

Ltac close_trace :=
  unfold ends_with; cbn [fst snd trace];
  rewrite <- ?app_assoc; cbn [app];
  repeat split; try reflexivity; try congruence.

Section Operations.

Variable w : World.

(** C3: a token reply without an [access_token] field makes
    [_refresh_access_token] return [False] when its status is an error
    status, its body is not JSON, or its body is a JSON object; an
    operation entered without a token then returns its failure value,
    and the token request is the only HTTP call it made.  When the body
    is any other JSON document ([[]], [null], a number, a text) under a
    good status, the claim fails on the code: [token_data.get] raises
    [AttributeError], which leaves the refresh and the operation. *)
Theorem refresh_without_access_token
    (self : Publisher) (zip_path : path) (target : string)
    (st : state) (r : response) :
  net w (requests (trace st)) (token_request self) = NetResponse r ->
  body_field r "access_token" = None ->
  (reply_handled r ->
     (exists st', _refresh_access_token w self st = (Return false, st')) /\
     (truthy (access_token st) = false ->
      exists t, requests t = [token_request self] /\
        ends_with (upload_extension w self zip_path st) st (Return false) t /\
        ends_with (publish_extension w self target st) st (Return false) t /\
        ends_with (get_extension_info w self st) st (Return PyNone) t)) /\
  (~ reply_handled r ->
     fst (_refresh_access_token w self st) = Raise AttributeError /\
     (truthy (access_token st) = false ->
      exists t, requests t = [token_request self] /\
        ends_with (upload_extension w self zip_path st) st
          (Raise AttributeError) t /\
        ends_with (publish_extension w self target st) st
          (Raise AttributeError) t /\
        ends_with (get_extension_info w self st) st
          (Raise AttributeError) t)).
Proof.
  intros Hnet Hfield.
  unfold reply_handled, is_error_status, body_field in *.
  split; [intros Hh | intros Hno]; (split; [|intros Htok]).
  - unfold_script. script_simpl. rewrite Hnet.
    destruct (_ && _)%bool; script_simpl; [eauto|].
    destruct Hh as [Hh | [Hh | [d Hh]]]; [discriminate | |];
      rewrite Hh in *; script_simpl; [eauto|].
    rewrite Hfield. cbn. eauto.
  - unfold_script. script_simpl. rewrite Htok. script_simpl. rewrite Hnet.
    destruct (_ && _)%bool; script_simpl;
      [eexists; split; [|close_trace]; reflexivity|].
    destruct Hh as [Hh | [Hh | [d Hh]]]; [discriminate | |];
      rewrite Hh in *; script_simpl;
      [eexists; split; [|close_trace]; reflexivity|].
    rewrite Hfield. cbn.
    eexists. split; [|close_trace]. reflexivity.
  - unfold_script. script_simpl. rewrite Hnet.
    destruct (_ && _)%bool; script_simpl; [now destruct Hno; left|].
    destruct (json r) as [[| | | | | |d]|]; script_simpl;
      try reflexivity; destruct Hno; eauto.
  - unfold_script. script_simpl. rewrite Htok. script_simpl. rewrite Hnet.
    destruct (_ && _)%bool; script_simpl; [now destruct Hno; left|].
    destruct (json r) as [[| | | | | |d]|]; script_simpl;
      try (eexists; split; [|close_trace]; reflexivity);
      destruct Hno; eauto.
Qed.

(** C1 (amended): for every reply to the upload request,
    [upload_extension] returns [True] exactly when the status is 200
    and the body's [uploadState] is ["SUCCESS"]; otherwise it returns
    [False] after one diagnostic: the [itemError] detail for a 200
    reply with a JSON object, the status code and raw text for any
    other status. *)
Theorem upload_result
    (self : Publisher) (zip_path : path) (st st1 : state)
    (bytes : list Byte.byte) (r : response) :
  token_unavailable w self st = (Return false, st1) ->
  zip_file w zip_path = Content bytes ->
  net w (requests (trace st1))
    (upload_request self (access_token st1) bytes) = NetResponse r ->
  exists b st',
    upload_extension w self zip_path st = (Return b, st') /\
    (b = true <->
       status_code r = 200%Z /\
       body_field r "uploadState" = Some (PyStr "SUCCESS")) /\
    trace st' = trace st1 ++
      [EPrint (MsgUploading zip_path);
       EHttp (upload_request self (access_token st1) bytes);
       EPrint (if b then MsgUploaded else upload_diagnostic r)].
Proof.
  intros Htok Hzip Hnet.
  unfold upload_extension, mbind, M_bind. rewrite Htok. clear Htok.
  unfold body_field, upload_diagnostic.
  unfold_script. script_simpl. rewrite Hzip. script_simpl. rewrite Hnet.
  destruct (status_code r =? 200)%Z eqn:Hs; script_simpl.
  - apply Z.eqb_eq in Hs.
    destruct (json r) as [[| | | | | |d]|]; script_simpl;
      try (do 2 eexists; split; [reflexivity|]; split;
           [split; [discriminate | intros [_ H]; discriminate]
           | rewrite <- !app_assoc; reflexivity]).
    destruct (eq_str (default PyNone (d !! "uploadState")) "SUCCESS") eqn:He;
      script_simpl.
    + apply eq_str_true in He.
      do 2 eexists. split; [reflexivity|]. split.
      * split; [intros _|reflexivity]. split; [assumption|].
        destruct (d !! "uploadState"); simpl in He; congruence.
      * rewrite <- !app_assoc. reflexivity.
    + do 2 eexists. split; [reflexivity|]. split.
      * split; [discriminate|]. intros [_ H]. rewrite H in He.
        simpl in He. discriminate.
      * rewrite <- !app_assoc. reflexivity.
  - apply Z.eqb_neq in Hs.
    do 2 eexists. split; [reflexivity|]. split.
    + split; [discriminate|]. intros [H _]. contradiction.
    + rewrite <- !app_assoc. reflexivity.
Qed.

(** C2 (amended): for every reply to the publish request with status
    200, [publish_extension] returns [True] exactly when ["OK" in status]
    holds for the [status] field of the body, as Python's [in] decides
    it: an element of a list, a part of a text, a key of an object.  In
    every other case it returns [False], after one diagnostic. *)
Theorem publish_result
    (self : Publisher) (target : string) (st st1 : state) (r : response) :
  token_unavailable w self st = (Return false, st1) ->
  net w (requests (trace st1))
    (publish_request self (access_token st1) target) = NetResponse r ->
  status_code r = 200%Z ->
  exists b st',
    publish_extension w self target st = (Return b, st') /\
    (b = true <-> status_has_ok r) /\
    trace st' = trace st1 ++
      [EPrint (MsgPublishing target);
       EHttp (publish_request self (access_token st1) target);
       EPrint (if b then MsgPublished else publish_diagnostic r)].
Proof.
  intros Htok Hnet Hs.
  unfold publish_extension, mbind, M_bind. rewrite Htok. clear Htok.
  unfold status_has_ok, publish_diagnostic, body_field.
  unfold_script. script_simpl. rewrite Hnet, Hs. cbn [Z.eqb Pos.eqb].
  destruct (json r) as [[| | | | | |d]|]; script_simpl;
    try (do 2 eexists; split; [reflexivity|];
         split; [split; [discriminate | contradiction]
                | cbn [trace]; rewrite <- ?app_assoc; reflexivity]).
  destruct (d !! "status") as [v|] eqn:Hv; cbn [default from_option id].
  - destruct v as [| | | |s|l|d']; script_simpl;
      try (do 2 eexists; split; [reflexivity|];
           split; [split; [discriminate | contradiction]
                  | cbn [trace]; rewrite <- ?app_assoc; reflexivity]).
    + destruct (substring_in "OK" s) eqn:He; script_simpl;
        do 2 eexists; (split; [reflexivity|]);
        (split; [split; congruence | cbn [trace]; rewrite <- ?app_assoc; reflexivity]).
    + destruct (existsb (fun x => eq_str x "OK") l) eqn:He; script_simpl;
        do 2 eexists; (split; [reflexivity|]);
        (split; [| cbn [trace]; rewrite <- ?app_assoc; reflexivity]).
      * split; [intros _ | reflexivity]. now apply existsb_eq_str.
      * split; [discriminate|]. intros Hin.
        apply existsb_eq_str in Hin. congruence.
    + destruct (bool_decide (is_Some (d' !! "OK"))) eqn:He; script_simpl;
        do 2 eexists; (split; [reflexivity|]);
        (split; [| cbn [trace]; rewrite <- ?app_assoc; reflexivity]).
      * split; [intros _ | reflexivity]. now apply bool_decide_eq_true in He.
      * split; [discriminate|]. intros Hin.
        apply bool_decide_eq_false in He. contradiction.
  - script_simpl. do 2 eexists. split; [reflexivity|].
    split; [split; [discriminate | contradiction]
           | cbn [trace]; rewrite <- ?app_assoc; reflexivity].
Qed.

End Operations.

(** ** Credential bootstrap *)

Section Bootstrap.

Variable w : World.

Lemma load_env_lines_quiet (lines : list string) (st : state) :
  exists o env',
    load_env_lines lines st =
      (o, mkState (access_token st) env' (stdin st) (trace st)) /\
    (o = Return tt \/ exists e, o = Raise e).
Proof.
  revert st. induction lines as [|line rest IH]; intros st.
  - exists (Return tt), (environ st). destruct st; simpl. auto.
  - cbn [load_env_lines]. unfold mbind, M_bind.
    set (guard := (_ && _ && _)%bool). destruct guard.
    + destruct (split1 "=" (strip line)) as [[key value]|].
      * unfold setenv. destruct (putenv_error _ _) as [e|].
        -- exists (Raise e), (environ st). destruct st; simpl. eauto.
        -- destruct (IH (mkState (access_token st)
                       (<[strip key := strip value]> (environ st))
                       (stdin st) (trace st))) as (o & env' & Heq & Ho).
           rewrite Heq. cbn [access_token stdin trace] in *.
           exists o, env'. destruct Ho as [->|[e ->]]; eauto.
      * exists (Raise ValueError), (environ st). destruct st; simpl. eauto.
    + unfold mret, M_ret.
      destruct (IH st) as (o & env' & Heq & Ho). rewrite Heq.
      exists o, env'. destruct Ho as [->|[e ->]]; eauto.
Qed.

Lemma load_env_file_returns (st : state) :
  exists b env' pr,
    load_env_file w st =
      (Return b, mkState (access_token st) env' (stdin st) (trace st ++ pr)) /\
    env_prints pr.
Proof.
  unfold load_env_file, env_prints.
  destruct (env_file w) as [|e|lines]; cbn [file_exists].
  - exists false, (environ st), []. rewrite app_nil_r. destruct st; simpl. auto.
  - exists false, (environ st), [EPrint MsgLoadingEnv; EPrint (MsgEnvError e)].
    split; [|eauto]. unfold_script. cbn [access_token environ stdin trace].
    rewrite <- ?app_assoc. reflexivity.
  - unfold_script. cbn [access_token environ stdin trace].
    destruct (load_env_lines_quiet lines
                (mkState (access_token st) (environ st) (stdin st)
                   (trace st ++ [EPrint MsgLoadingEnv])))
      as (o & env' & Heq & Ho).
    rewrite Heq. cbn [access_token environ stdin trace] in *.
    destruct Ho as [->|[e ->]].
    + exists true, env', [EPrint MsgLoadingEnv]. auto.
    + exists false, env', [EPrint MsgLoadingEnv; EPrint (MsgEnvError e)].
      split; [|eauto]. cbn [access_token environ stdin trace].
      rewrite <- app_assoc. reflexivity.
Qed.

Lemma scan_vars_pure (vars : list string) (st : state) :
  scan_vars vars st =
    (Return (filter (fun var => is_missing (environ st !! var) = true) vars,
             map (fun var => if is_missing (environ st !! var) then ""
                             else default "" (environ st !! var)) vars),
     st).
Proof.
  induction vars as [|var rest IH]; [reflexivity|].
  cbn [scan_vars]. unfold mbind, M_bind, getenv. rewrite IH.
  unfold mret, M_ret. cbn [map]. rewrite filter_cons.
  destruct (is_missing (environ st !! var)) eqn:E.
  - rewrite decide_True by reflexivity. reflexivity.
  - rewrite decide_False by discriminate. reflexivity.
Qed.

Lemma missing_filter (env : gmap string string) :
  credentials_missing env <->
  filter (fun var => is_missing (env !! var) = true) required_vars <> [].
Proof.
  unfold credentials_missing. split.
  - intros (var & Hin & Hm) Hnil.
    assert (Hel : var ∈ filter (fun var => is_missing (env !! var) = true)
                        required_vars).
    { apply list_elem_of_filter. split; [assumption|]. now apply list_elem_of_In. }
    rewrite Hnil in Hel. inversion Hel.
  - intros Hne.
    destruct (filter _ required_vars) as [|var l] eqn:E; [congruence|].
    assert (Hel : var ∈ filter (fun var => is_missing (env !! var) = true)
                        required_vars) by (rewrite E; left).
    apply list_elem_of_filter in Hel as [Hm Hin].
    exists var. split; [now apply list_elem_of_In | assumption].
Qed.

Lemma present_value (o : option string) :
  is_missing o = false -> exists s, o = Some s /\ s <> "".
Proof.
  destruct o as [s|]; [|discriminate]. simpl. intros H.
  exists s. split; [reflexivity|]. intros ->. discriminate.
Qed.

(** [get_env_vars] either exits with status 1, having found a credential
    missing, or returns the four values, all non-empty; it only prints. *)
Lemma get_env_vars_cases (st : state) :
  exists env' pr,
    env_prints pr /\ env' = environ (snd (load_env_file w st)) /\
    ((credentials_missing env' /\
      exists m, get_env_vars w st =
        (SysExit 1, mkState (access_token st) env' (stdin st)
                      (trace st ++ pr ++ [EPrint (MsgMissingCredentials m)])))
     \/
     (~ credentials_missing env' /\
      exists a b c d,
        get_env_vars w st =
          (Return [a; b; c; d],
           mkState (access_token st) env' (stdin st) (trace st ++ pr)) /\
        env' !! "CWS_CLIENT_ID" = Some a /\ a <> "" /\
        env' !! "CWS_CLIENT_SECRET" = Some b /\ b <> "" /\
        env' !! "CWS_REFRESH_TOKEN" = Some c /\ c <> "" /\
        env' !! "CWS_EXTENSION_ID" = Some d /\ d <> "")).
Proof.
  destruct (load_env_file_returns st) as (b0 & env' & pr & Heq & Hpr).
  exists env', pr. split; [assumption|]. split; [rewrite Heq; reflexivity|].
  unfold get_env_vars, mbind, M_bind. rewrite Heq, scan_vars_pure.
  cbn [environ]. rewrite missing_filter.
  destruct (filter _ required_vars) as [|var l] eqn:E.
  - right. split; [congruence|].
    unfold required_vars in *. rewrite !filter_cons, filter_nil in E.
    repeat match type of E with
           | context [decide (?P)] => destruct (decide P); [discriminate|]
           end.
    unfold mret, M_ret. cbn [map].
    repeat match goal with
           | H : is_missing _ <> true |- _ =>
               apply not_true_is_false in H;
               let H' := fresh in
               pose proof (present_value _ H) as (? & H' & ?);
               rewrite H, H'; clear H
           end.
    cbn [default from_option id].
    do 4 eexists. split; [reflexivity|]. repeat split; assumption.
  - left. split; [congruence|].
    unfold_script. cbn [access_token environ stdin trace].
    eexists. rewrite <- app_assoc. reflexivity.
Qed.

End Bootstrap.

(** ** The run as a whole *)

Ltac unfold_main :=
  unfold run, main, get_project_info, find_extension_zip, run_setup_wizard,
    input, initial_state in *.

Ltac close_leaf :=
  first [ vm_compute; reflexivity | exfalso; cbn in *; congruence ].

(** The four actions that need credentials: run [get_env_vars] by its
    case lemma, execute the rest, and settle each leaf for the three
    things [load_env_file] may have printed. *)
Ltac audit_action w :=
  let Hpr := fresh "Hpr" in
  let Heq := fresh "Heq" in
  destruct (get_env_vars_cases w (initial_state w))
    as (? & ? & Hpr & _ & [(_ & ? & Heq) | (_ & ? & ? & ? & ? & Heq & _)]);
  unfold run, main; cbn [action]; unfold mbind at 1, M_bind at 1;
  rewrite Heq; clear Heq;
  unfold_main; unfold_script;
  cbn [app initial_state access_token environ stdin trace keyboard];
  exec;
  destruct Hpr as [-> | [-> | [? ->]]]; close_leaf.

Section Run.

Variable w : World.

(** Every run passes all the checks of [audit]: the script is executed
    symbolically against whatever the world answers. *)
Lemma run_audited (args : Args) : audit args (run w args) = true.
Proof.
  destruct args as [act [[|c z]|]]; destruct act.
  all: lazymatch goal with
       | |- audit {| action := Setup; zip := _ |} _ = true =>
           unfold_main; unfold_script; cbn [action]; exec; close_leaf
       | _ => audit_action w
       end.
Qed.

End Run.

(** ** From the checks to the properties *)

Lemma refresh_precedes_sound (rs : list request) :
  forall seen, refresh_precedes seen rs = true ->
  forall i r, rs !! i = Some r -> is_authorized r = true ->
    seen = true \/
    exists j r0, (j < i)%nat /\ rs !! j = Some r0 /\ is_token_request r0 = true.
Proof.
  induction rs as [|a rs IH]; intros seen Hc i r Hi Ha; [discriminate|].
  cbn [refresh_precedes] in Hc. apply andb_true_iff in Hc as [Hhead Hrest].
  destruct i as [|i]; cbn in Hi.
  - injection Hi as ->. rewrite Ha in Hhead. now left.
  - destruct (IH _ Hrest i r Hi Ha) as [Hseen | (j & r0 & Hlt & Hj & Hr0)].
    + apply orb_true_iff in Hseen as [Hseen | Htok]; [now left|].
      right. exists 0%nat, a. repeat split; [lia | assumption].
    + right. exists (S j), r0. repeat split; [lia | assumption | assumption].
Qed.

Lemma refresh_precedes_first (rs : list request) :
  refresh_precedes false rs = true -> refresh_first rs.
Proof.
  intros Hc i r Hi Ha.
  destruct (refresh_precedes_sound rs false Hc i r Hi Ha); [discriminate | assumption].
Qed.

Lemma publish_guarded_sound (t : list event) :
  forall uploaded, publish_guarded uploaded t = true ->
  forall i r, t !! i = Some (EHttp r) -> is_publish_call r = true ->
    uploaded = true \/
    exists j, (j < i)%nat /\ t !! j = Some (EPrint MsgUploaded).
Proof.
  induction t as [|e t IH]; intros uploaded Hc i r Hi Hp; [discriminate|].
  destruct i as [|i]; cbn in Hi.
  - injection Hi as ->. cbn [publish_guarded] in Hc.
    apply andb_true_iff in Hc as [Hhead _]. rewrite Hp in Hhead. now left.
  - assert (Hnext : exists up', publish_guarded up' t = true /\
              (up' = true -> uploaded = true \/ e = EPrint MsgUploaded)).
    { destruct e as [m|r'| |]; cbn [publish_guarded] in Hc.
      - destruct m; eauto.
      - apply andb_true_iff in Hc as [_ Hc]. eauto.
      - eauto.
      - eauto. }
    destruct Hnext as (up' & Hc' & Hup).
    destruct (IH _ Hc' i r Hi Hp) as [Htrue | (j & Hlt & Hj)].
    + destruct (Hup Htrue) as [? | ->]; [now left|].
      right. exists 0%nat. split; [lia | reflexivity].
    + right. exists (S j). split; [lia | assumption].
Qed.

Lemma publish_guarded_follows (t : list event) :
  publish_guarded false t = true -> publish_follows_upload t.
Proof.
  intros Hc i r Hi Hp.
  destruct (publish_guarded_sound t false Hc i r Hi Hp); [discriminate | assumption].
Qed.

Lemma no_retry_sound (rs : list request) :
  no_retry rs = true -> never_retried rs.
Proof.
  induction rs as [|a rs IH]; intros Hc i j r1 r2 Hlt Hi Hj; [discriminate|].
  cbn [no_retry] in Hc. apply andb_true_iff in Hc as [Hhead Hrest].
  destruct j as [|j]; [lia|]. cbn in Hj.
  destruct i as [|i]; cbn in Hi.
  - injection Hi as ->.
    rewrite forallb_forall in Hhead.
    apply negb_true_iff, Hhead.
    apply list_elem_of_In, list_elem_of_lookup. eauto.
  - apply (IH Hrest i j); [lia | assumption | assumption].
Qed.

Lemma existsb_false_forall {A} (f : A -> bool) (l : list A) :
  existsb f l = false -> forall x, In x l -> f x = false.
Proof.
  intros He x Hin. destruct (f x) eqn:Hf; [|reflexivity].
  assert (existsb f l = true) by (apply existsb_exists; eauto). congruence.
Qed.

(** What a passed [audit] says. *)
Lemma audit_sound (args : Args) (code : Z) (t : list event) :
  audit args (code, t) = true ->
  refresh_first (requests t) /\
  publish_follows_upload t /\
  (forall r, In r (requests t) ->
     req_params r =
       if is_publish_call r && is_testers (action args)
       then tester_params else ∅) /\
  (length (filter (fun r => is_publish_call r = true) (requests t)) <= 1)%nat /\
  never_retried (requests t) /\
  upload_gates_publish (action args) code t = true /\
  exit_reports_outcome (action args) code t = true /\
  (zip_given args = true -> mentions_lookup_failure t = false) /\
  refresh_opens t = true /\
  publish_call_made (action args) t = true.
Proof.
  unfold audit. rewrite !andb_true_iff.
  intros [[[[[[[[[H1 H2] H3] H4] H5] H6] H8] H7] H9] H10].
  split; [now apply refresh_precedes_first|].
  split; [now apply publish_guarded_follows|].
  split.
  { intros r Hin. rewrite forallb_forall in H3.
    specialize (H3 r Hin). unfold params_allowed in H3.
    now apply bool_decide_eq_true in H3. }
  split; [now apply Nat.leb_le|].
  split; [now apply no_retry_sound|].
  split; [assumption|].
  split; [assumption|].
  split; [|split; assumption].
  intros Hz. rewrite Hz in H7. now apply negb_true_iff.
Qed.

(** What [refresh_opens] says of the requests of a run. *)
Lemma refresh_opens_sound (t : list event) :
  refresh_opens t = true ->
  (mentions_banner t = true ->
   exists r rest, requests t = r :: rest /\ is_token_request r = true) /\
  (mentions_banner t = false -> requests t = []).
Proof.
  unfold refresh_opens. destruct (requests t) as [|r rest].
  - intros H. apply negb_true_iff in H. split; [congruence | reflexivity].
  - intros H. apply andb_true_iff in H as [Hb Hr].
    split; [eauto | congruence].
Qed.

(** What [publish_call_made] says when the upload has succeeded. *)
Lemma publish_call_made_sound (act : Action) (t : list event) :
  publish_call_made act t = true ->
  act = Publish \/ act = Testers ->
  mentions_upload_success t = true ->
  exists r,
    filter (fun r => is_publish_call r = true) (requests t) = [r] /\
    req_params r = if is_testers act then tester_params else ∅.
Proof.
  intros Hc Hact Hup. unfold publish_call_made in Hc. rewrite Hup in Hc.
  destruct (filter _ (requests t)) as [|r [|r' l]];
    try (destruct Hact as [-> | ->]; discriminate).
  exists r. split; [reflexivity|].
  destruct Hact as [-> | ->]; now apply bool_decide_eq_true in Hc.
Qed.


Ltac close_appended tac :=
  eexists; split;
  [ cbn [fst snd trace]; rewrite <- ?app_assoc; cbn [app]; reflexivity
  | tac ].

Section Guards.

Variable w : World.

(** [upload_extension] returns [True] exactly when it printed its
    success line. *)
Lemma upload_announces_success (self : Publisher) (zip_path : path)
    (st : state) :
  exists t,
    trace (snd (upload_extension w self zip_path st)) = trace st ++ t /\
    (fst (upload_extension w self zip_path st) = Return true <->
     mentions_upload_success t = true).
Proof.
  unfold_script. exec.
  all: close_appended ltac:(vm_compute; split; congruence).
Qed.

(** With a token reply that is a JSON object (or not JSON at all), the
    three operations return: transport errors and error statuses are
    reported and turned into the failure value. *)
Lemma operations_return (self : Publisher) (zip_path : path)
    (target : string) (st : state) :
  token_reply_is_object w self st ->
  returns (upload_extension w self zip_path st) /\
  returns (publish_extension w self target st) /\
  returns (get_extension_info w self st).
Proof.
  intros Hobj. unfold returns, token_reply_is_object in *.
  unfold_script. repeat split.
  all: exec.
  all: try (eexists; reflexivity).
  all: exfalso;
    match goal with
    | Hj : json ?r = Some ?v |- _ =>
        destruct (Hobj r v eq_refl Hj) as [? ?]; congruence
    end.
Qed.

(** C7: an operation entered without a token attempts the refresh
    first: the requests it makes open with the token request of its
    publisher, and its authorized call, if any, comes after it.  In a
    whole run every authorized request comes after a token request; a
    run that reaches its action (the banner is printed) opens with a
    token request, and a run that does not sends nothing. *)
Theorem refresh_before_authorized (self : Publisher) (zip_path : path)
    (target : string) (st : state) (args : Args) :
  (truthy (access_token st) = false ->
     appends (upload_extension w self zip_path st) st (refreshed_first self) /\
     appends (publish_extension w self target st) st (refreshed_first self) /\
     appends (get_extension_info w self st) st (refreshed_first self)) /\
  refresh_first (requests (snd (run w args))) /\
  (mentions_banner (snd (run w args)) = true ->
   exists r rest, requests (snd (run w args)) = r :: rest /\
                  is_token_request r = true) /\
  (mentions_banner (snd (run w args)) = false ->
   requests (snd (run w args)) = []).
Proof.
  split.
  - intros Hno. unfold appends, refreshed_first. unfold_script. cbn [negb]. rewrite Hno.
    repeat split.
    all: exec.
    all: close_appended ltac:(split;
           [eexists; reflexivity
           | apply refresh_precedes_first; vm_compute; reflexivity]).
  - pose proof (run_audited w args) as Ha.
    destruct (run w args) as [code t].
    apply audit_sound in Ha. cbn [snd].
    split; [apply Ha|].
    apply refresh_opens_sound, Ha.
Qed.

(** C6: in every run the query parameters of a request are
    [publishTarget=trustedTesters] when the request is the publish call
    and the action is [testers], and empty otherwise.  For the testers
    action, once the upload has succeeded, the publish call is made,
    once, and [publishTarget=trustedTesters] is its one parameter; for
    the publish action it is made, once, without any parameter. *)
Theorem tester_parameter_only_for_testers (args : Args) :
  (forall r, In r (requests (snd (run w args))) ->
     req_params r =
       if is_publish_call r && is_testers (action args)
       then tester_params else ∅) /\
  (action args = Testers ->
   mentions_upload_success (snd (run w args)) = true ->
   exists r,
     filter (fun r => is_publish_call r = true)
       (requests (snd (run w args))) = [r] /\
     map_to_list (req_params r) = [("publishTarget", "trustedTesters")]) /\
  (action args = Publish ->
   mentions_upload_success (snd (run w args)) = true ->
   exists r,
     filter (fun r => is_publish_call r = true)
       (requests (snd (run w args))) = [r] /\
     req_params r = ∅).
Proof.
  pose proof (run_audited w args) as Ha.
  destruct (run w args) as [code t].
  apply audit_sound in Ha. cbn [snd].
  destruct Ha as (_ & _ & Hparams & _ & _ & _ & _ & _ & _ & Hmade).
  split; [exact Hparams|]. split; intros Hact Hup.
  - destruct (publish_call_made_sound _ _ Hmade (or_intror Hact) Hup)
      as (r & Hr & Hp).
    exists r. split; [exact Hr|]. rewrite Hp, Hact. reflexivity.
  - destruct (publish_call_made_sound _ _ Hmade (or_introl Hact) Hup)
      as (r & Hr & Hp).
    exists r. split; [exact Hr|]. rewrite Hp, Hact. reflexivity.
Qed.

(** C9: a publish call is made only after [upload_extension] has
    printed its success line; for the publish and testers actions a
    run in which the upload did not succeed exits with status 1
    without a publish call. *)
Theorem publish_only_after_upload (args : Args) :
  publish_follows_upload (snd (run w args)) /\
  (action args = Publish \/ action args = Testers ->
   mentions_upload_success (snd (run w args)) = false ->
   fst (run w args) = 1%Z /\
   forall r, In r (requests (snd (run w args))) -> is_publish_call r = false).
Proof.
  pose proof (run_audited w args) as Ha.
  destruct (run w args) as [code t].
  apply audit_sound in Ha. cbn [fst snd].
  destruct Ha as (_ & Hfollow & _ & _ & _ & Hgate & _).
  split; [assumption|].
  intros Hact Hno. unfold upload_gates_publish in Hgate.
  rewrite Hno in Hgate. cbn [orb] in Hgate.
  assert (Hboth : ((code =? 1)%Z
                   && negb (existsb is_publish_call (requests t)))%bool = true)
    by (destruct Hact as [Hact | Hact]; rewrite Hact in Hgate; exact Hgate).
  apply andb_true_iff in Hboth as [Hcode Hnone].
  split; [now apply Z.eqb_eq|].
  apply existsb_false_forall. now apply negb_true_iff.
Qed.

(** For the upload, publish and testers actions the exit status is 0
    when the closing success line was printed and 1 otherwise. *)
Lemma exit_reports_success (args : Args) :
  action args = Upload \/ action args = Publish \/ action args = Testers ->
  fst (run w args) = if mentions_done (snd (run w args)) then 0%Z else 1%Z.
Proof.
  intros Hact.
  pose proof (run_audited w args) as Ha.
  destruct (run w args) as [code t].
  apply audit_sound in Ha. cbn [fst snd].
  destruct Ha as (_ & _ & _ & _ & _ & _ & Hexit & _).
  unfold exit_reports_outcome in Hexit.
  destruct Hact as [Hact | [Hact | Hact]]; rewrite Hact in Hexit;
    now apply Z.eqb_eq.
Qed.

(** No endpoint is called twice in a run. *)
Lemma run_never_retries (args : Args) :
  never_retried (requests (snd (run w args))).
Proof.
  pose proof (run_audited w args) as Ha.
  destruct (run w args) as [code t].
  now apply audit_sound in Ha.
Qed.

Lemma env_prints_silent (pr : list event) :
  env_prints pr -> requests pr = [].
Proof. intros [-> | [-> | [e ->]]]; reflexivity. Qed.

Lemma run_without_credentials (args : Args) (st' : state) :
  action args <> Setup ->
  get_env_vars w (initial_state w) = (SysExit 1, st') ->
  run w args = (1%Z, trace st').
Proof.
  intros Hact Heq. destruct args as [act zip_arg]. cbn [action] in Hact.
  unfold run, main. cbn [action].
  destruct act; try contradiction; unfold mbind, M_bind; rewrite Heq;
    reflexivity.
Qed.

Lemma run_without_package_json (args : Args) (a b c d : string)
    (st' : state) :
  action args <> Setup ->
  package_json w = Absent ->
  get_env_vars w (initial_state w) = (Return [a; b; c; d], st') ->
  run w args = (1%Z, trace st' ++ [EPrint MsgNoPackageJson]).
Proof.
  intros Hact Hpkg Heq. destruct args as [act zip_arg]. cbn [action] in Hact.
  unfold run, main, get_project_info. cbn [action]. rewrite Hpkg.
  destruct act; try contradiction; unfold_script; rewrite Heq;
    reflexivity.
Qed.

(** C5: for every action but setup, a required credential that is
    missing or empty once [.env.cws] has been loaded ends the run with
    status 1 and without any request; and whenever [get_env_vars]
    returns, it returns four non-empty values and has sent nothing. *)
Theorem missing_credentials_halt (args : Args) :
  action args <> Setup ->
  (credentials_missing (loaded_environ w) ->
     fst (run w args) = 1%Z /\ requests (snd (run w args)) = []) /\
  (forall st values st',
     get_env_vars w st = (Return values, st') ->
     requests (trace st') = requests (trace st) /\
     ~ credentials_missing (environ st') /\
     exists a b c d,
       values = [a; b; c; d] /\ a <> "" /\ b <> "" /\ c <> "" /\ d <> "").
Proof.
  intros Hact. split.
  - intros Hmiss.
    destruct (get_env_vars_cases w (initial_state w))
      as (env' & pr & Hpr & Henv & [(_ & m & Heq) | (Hnot & _)]).
    + rewrite (run_without_credentials args _ Hact Heq).
      cbn [fst snd trace initial_state app].
      split; [reflexivity|].
      rewrite requests_app, (env_prints_silent _ Hpr). reflexivity.
    + exfalso. apply Hnot. rewrite Henv. exact Hmiss.
  - intros st values st' Hret.
    destruct (get_env_vars_cases w st)
      as (env' & pr & Hpr & _ & [(_ & m & Heq) | (Hnot & a & b & c & d & Heq & Hv)]).
    + rewrite Heq in Hret. discriminate.
    + rewrite Heq in Hret. injection Hret as <- <-. cbn [trace environ].
      split; [rewrite requests_app, (env_prints_silent _ Hpr); apply app_nil_r|].
      split; [assumption|].
      exists a, b, c, d. intuition.
Qed.

(** C10: for every action but setup, with or without [--zip], a
    missing [package.json] ends the run with status 1 and without any
    request (after the [package.json not found] line when the
    credentials are there); and a run given [--zip] never reports the
    failure of the ZIP-name lookup. *)
Theorem package_json_required (act : Action) (zip_arg : option string) :
  act <> Setup ->
  (package_json w = Absent ->
     fst (run w (mkArgs act zip_arg)) = 1%Z /\
     requests (snd (run w (mkArgs act zip_arg))) = [] /\
     (~ credentials_missing (loaded_environ w) ->
      last (snd (run w (mkArgs act zip_arg))) = Some (EPrint MsgNoPackageJson))) /\
  (zip_given (mkArgs act zip_arg) = true ->
     mentions_lookup_failure (snd (run w (mkArgs act zip_arg))) = false).
Proof.
  intros Hact. split.
  - intros Hpkg.
    destruct (get_env_vars_cases w (initial_state w))
      as (env' & pr & Hpr & Henv &
          [(Hmiss & m & Heq) | (Hnot & a & b & c & d & Heq & _)]).
    + rewrite (run_without_credentials (mkArgs act zip_arg) _ Hact Heq).
      cbn [fst snd trace initial_state app].
      split; [reflexivity|].
      split; [rewrite requests_app, (env_prints_silent _ Hpr); reflexivity|].
      intros Hpresent. exfalso. apply Hpresent.
      unfold loaded_environ. rewrite <- Henv. exact Hmiss.
    + rewrite (run_without_package_json (mkArgs act zip_arg) a b c d _
                 Hact Hpkg Heq).
      cbn [fst snd trace initial_state app].
      split; [reflexivity|].
      split; [rewrite requests_app, (env_prints_silent _ Hpr); reflexivity|].
      intros _. apply last_snoc.
  - intros Hz.
    pose proof (run_audited w (mkArgs act zip_arg)) as Ha.
    destruct (run w (mkArgs act zip_arg)) as [code t].
    apply audit_sound in Ha. cbn [snd]. now apply Ha.
Qed.

End Guards.

(** ** The properties on the sample worlds *)

Example strip_spaces : strip "  a b  " = "a b".
Proof. reflexivity. Qed.

Example strip_unicode_spaces :
  strip (Sample.nbsp ++ " y" ++ Sample.wide_space ++ Sample.nbsp) = "y" /\
  strip (Sample.a_grave ++ " ") = Sample.a_grave /\
  lower (strip ("Y" ++ Sample.nbsp)) = "y".
Proof. repeat split; reflexivity. Qed.

Example split_first_equals : split1 "=" "K=v=w" = Some ("K", "v=w").
Proof. reflexivity. Qed.

Example truthy_values :
  truthy PyNone = false /\ truthy (PyStr "") = false /\
  truthy (PyStr "ya29") = true /\ truthy (PyInt 0) = false /\
  truthy (PyList []) = false /\ truthy (PyDict ∅) = false /\
  truthy (Sample.object [("title", PyNone)]) = true.
Proof. repeat split; reflexivity. Qed.

Example membership :
  contains (PyList [PyStr "NOT_OK"; PyStr "OK"]) "OK" = inr true /\
  contains (PyList [PyStr "ITEM_PENDING_REVIEW"]) "OK" = inr false /\
  contains (PyList []) "OK" = inr false /\
  contains PyNone "OK" = inl TypeError.
Proof. repeat split; reflexivity. Qed.

Example env_file_is_loaded :
  loaded_environ Sample.from_env_file =
    <["CWS_CLIENT_SECRET" := "s=cret"]> Sample.credentials /\
  fst (run Sample.from_env_file (mkArgs Upload None)) = 0%Z.
Proof. split; vm_compute; reflexivity. Qed.

Example publish_call_recognised (self : Publisher) (token : pyval)
    (target : string) (bytes : list Byte.byte) :
  is_publish_call (publish_request self token target) = true /\
  is_publish_call (token_request self) = false /\
  is_publish_call (upload_request self token bytes) = false /\
  is_publish_call (info_request self token) = false.
Proof. repeat split; reflexivity. Qed.

Example authorized_calls (self : Publisher) (token : pyval)
    (target : string) (bytes : list Byte.byte) :
  is_authorized (token_request self) = false /\
  is_token_request (token_request self) = true /\
  is_authorized (upload_request self token bytes) = true /\
  is_authorized (publish_request self token target) = true /\
  is_authorized (info_request self token) = true.
Proof. repeat split; reflexivity. Qed.

Example happy_testers_run :
  fst (run Sample.happy (mkArgs Testers None)) = 0%Z /\
  printed (snd (run Sample.happy (mkArgs Testers None))) =
    [MsgBanner "ext" Sample.built (PyStr "1.2.3");
     MsgRefreshing; MsgTokenRefreshed;
     MsgUploading Sample.built; MsgUploaded;
     MsgPublishing "testers"; MsgPublished; MsgTestersDone].
Proof. split; vm_compute; reflexivity. Qed.

(** C1, as the specification words it, fails: a reply with status 500
    (with a JSON body that carries an [itemError], or with a plain text
    body) makes [upload_extension] fail after printing the status code
    and the raw text, not the [itemError] detail. *)
Lemma upload_item_error_not_printed :
  ~ upload_reports_item_error Sample.upload_rejected_500 Sample.self
      Sample.built (initial_state Sample.upload_rejected_500) /\
  ~ upload_reports_item_error Sample.upload_unavailable_503 Sample.self
      Sample.built (initial_state Sample.upload_unavailable_503).
Proof.
  split; intros H.
  - destruct (H (Sample.after_refresh Sample.upload_rejected_500)
                Sample.zip_bytes Sample.rejected)
      as (b & st' & Heq & _ & Hprint); try (vm_compute; reflexivity).
    vm_compute in Heq. injection Heq as <- <-.
    specialize (Hprint eq_refl). vm_compute in Hprint. discriminate.
  - destruct (H (Sample.after_refresh Sample.upload_unavailable_503)
                Sample.zip_bytes (Sample.plain 503 "Service Unavailable"))
      as (b & st' & Heq & _ & Hprint); try (vm_compute; reflexivity).
    vm_compute in Heq. injection Heq as <- <-.
    specialize (Hprint eq_refl). vm_compute in Hprint. discriminate.
Qed.

Lemma upload_result_witness :
  exists st',
    upload_extension Sample.happy Sample.self Sample.built
      (initial_state Sample.happy) = (Return true, st').
Proof.
  destruct (upload_result Sample.happy Sample.self Sample.built
              (initial_state Sample.happy) (Sample.after_refresh Sample.happy)
              Sample.zip_bytes Sample.upload_accepted)
    as (b & st' & Heq & Hiff & _); try (vm_compute; reflexivity).
  exists st'. rewrite Heq. f_equal. f_equal. apply Hiff.
  split; reflexivity.
Defined.

(** C2, as the specification words it, fails: a reply with status 200
    whose [status] is the text ["NOT_OK"], not a list, makes
    [publish_extension] succeed, since ["OK" in "NOT_OK"] holds for
    texts. *)
Lemma publish_status_text_accepted :
  ~ publish_succeeds_iff_listed Sample.publish_text Sample.self "default"
      (initial_state Sample.publish_text).
Proof.
  intros H.
  destruct (H (Sample.after_refresh Sample.publish_text) Sample.status_as_text)
    as (b & st' & Heq & Hiff); try (vm_compute; reflexivity).
  vm_compute in Heq. injection Heq as <- <-.
  destruct (proj1 Hiff eq_refl) as (l & Hl & _).
  vm_compute in Hl. discriminate.
Qed.

Lemma publish_result_witness :
  exists st',
    publish_extension Sample.publish_text Sample.self "default"
      (initial_state Sample.publish_text) = (Return true, st').
Proof.
  assert (Htok : token_unavailable Sample.publish_text Sample.self
                   (initial_state Sample.publish_text)
                 = (Return false, Sample.after_refresh Sample.publish_text))
    by (vm_compute; reflexivity).
  assert (Hnet : net Sample.publish_text
                   (requests (trace (Sample.after_refresh Sample.publish_text)))
                   (publish_request Sample.self
                      (access_token (Sample.after_refresh Sample.publish_text))
                      "default")
                 = NetResponse Sample.status_as_text)
    by (vm_compute; reflexivity).
  destruct (publish_result Sample.publish_text Sample.self "default" _ _ _
              Htok Hnet eq_refl) as (b & st' & Heq & Hiff & _).
  exists st'. rewrite Heq. f_equal. f_equal. apply Hiff.
  vm_compute. reflexivity.
Defined.

Lemma refresh_without_access_token_witness :
  fst (_refresh_access_token Sample.token_reply_null Sample.self
         (initial_state Sample.token_reply_null)) = Raise AttributeError /\
  exists st',
    _refresh_access_token Sample.no_token_field Sample.self
      (initial_state Sample.no_token_field) = (Return false, st').
Proof.
  split.
  - assert (Hnet : net Sample.token_reply_null
                     (requests (trace (initial_state Sample.token_reply_null)))
                     (token_request Sample.self)
                   = NetResponse (Sample.reply 200 PyNone)) by reflexivity.
    assert (Hfield : body_field (Sample.reply 200 PyNone) "access_token" = None)
      by reflexivity.
    destruct (refresh_without_access_token Sample.token_reply_null Sample.self
                Sample.built "default" _ _ Hnet Hfield) as [_ Hescapes].
    apply Hescapes.
    intros [H | [H | [d H]]]; vm_compute in H; discriminate.
  - assert (Hnet : net Sample.no_token_field
                     (requests (trace (initial_state Sample.no_token_field)))
                     (token_request Sample.self)
                   = NetResponse (Sample.reply 200 (PyDict Sample.token_fields)))
      by reflexivity.
    assert (Hfield : body_field (Sample.reply 200 (PyDict Sample.token_fields))
                       "access_token" = None) by (vm_compute; reflexivity).
    destruct (refresh_without_access_token Sample.no_token_field Sample.self
                Sample.built "default" _ _ Hnet Hfield) as [Hfails _].
    apply Hfails. right. right. eexists. reflexivity.
Defined.

(** C4 fails on the code for the info action: with a token granted and
    the info call answered by status 500, [get_extension_info] returns
    [None], and the program still exits with status 0. *)
Theorem info_failure_exits_zero :
  fst (get_extension_info Sample.info_fails Sample.self
         (initial_state Sample.info_fails)) = Return PyNone /\
  fst (run Sample.info_fails (mkArgs Info None)) = 0%Z /\
  printed (snd (run Sample.info_fails (mkArgs Info None))) =
    [MsgBanner "ext" Sample.built (PyStr "1.2.3");
     MsgRefreshing; MsgTokenRefreshed; MsgFetchingInfo;
     MsgHttpError 500 "Internal Server Error"].
Proof. repeat split; vm_compute; reflexivity. Qed.

(** C8 fails on the code: when the token endpoint answers 200 with a
    JSON document that is not an object, the [AttributeError] of
    [token_data.get] is not a [RequestException]; it leaves
    [_refresh_access_token] and each of the three operations, and ends
    the program with a traceback. *)
Theorem token_reply_error_escapes :
  fst (upload_extension Sample.token_reply_array Sample.self Sample.built
         (initial_state Sample.token_reply_array)) = Raise AttributeError /\
  fst (publish_extension Sample.token_reply_array Sample.self "default"
         (initial_state Sample.token_reply_array)) = Raise AttributeError /\
  fst (get_extension_info Sample.token_reply_array Sample.self
         (initial_state Sample.token_reply_array)) = Raise AttributeError /\
  fst (run Sample.token_reply_array (mkArgs Upload None)) = 1%Z.
Proof. repeat split; vm_compute; reflexivity. Qed.

Lemma missing_credentials_halt_witness :
  fst (run Sample.no_credentials (mkArgs Upload None)) = 1%Z /\
  requests (snd (run Sample.no_credentials (mkArgs Upload None))) = [].
Proof.
  apply (missing_credentials_halt Sample.no_credentials (mkArgs Upload None)).
  - discriminate.
  - exists "CWS_CLIENT_ID". split; [left; reflexivity | vm_compute; reflexivity].
Defined.

Lemma tester_parameter_witness :
  exists r,
    filter (fun r => is_publish_call r = true)
      (requests (snd (run Sample.happy (mkArgs Testers None)))) = [r] /\
    map_to_list (req_params r) = [("publishTarget", "trustedTesters")].
Proof.
  destruct (tester_parameter_only_for_testers Sample.happy
              (mkArgs Testers None)) as (_ & Htesters & _).
  apply Htesters; [reflexivity | vm_compute; reflexivity].
Defined.

Lemma refresh_before_authorized_witness :
  appends (upload_extension Sample.happy Sample.self Sample.built
             (initial_state Sample.happy))
    (initial_state Sample.happy) (refreshed_first Sample.self).
Proof.
  destruct (refresh_before_authorized Sample.happy Sample.self Sample.built
              "default" (initial_state Sample.happy) (mkArgs Upload None))
    as [Hops _].
  apply Hops. reflexivity.
Defined.

Lemma publish_only_after_upload_witness :
  fst (run Sample.upload_rejected_500 (mkArgs Publish None)) = 1%Z.
Proof.
  apply (publish_only_after_upload Sample.upload_rejected_500
           (mkArgs Publish None)).
  - left. reflexivity.
  - vm_compute. reflexivity.
Defined.

Lemma package_json_required_witness :
  fst (run Sample.no_package_json (mkArgs Upload (Some "x.zip"))) = 1%Z /\
  requests (snd (run Sample.no_package_json (mkArgs Upload (Some "x.zip")))) = [].
Proof.
  destruct (package_json_required Sample.no_package_json Upload (Some "x.zip"))
    as [Hexit _]; [discriminate|].
  destruct Hexit as (Hcode & Hreq & _); [reflexivity|].
  split; assumption.
Defined.

(** ** More on the three operations *)

Section OperationDetails.

Variable w : World.

(** The token refresh succeeds exactly when the reply grants a token;
  the token is then the one stored, and the refresh made one request. *)
Theorem refresh_result (self : Publisher) (st : state) (r : response) :
net w (requests (trace st)) (token_request self) = NetResponse r ->
(fst (_refresh_access_token w self st) = Return true <->
 exists token, reply_grants r token) /\
(forall token, reply_grants r token ->
   access_token (snd (_refresh_access_token w self st)) = token) /\
appends (_refresh_access_token w self st) st
  (fun rs => rs = [token_request self]).
Proof.
intros Hnet. unfold reply_grants, body_field, appends.
unfold_script. script_simpl. rewrite Hnet.
destruct (_ && _)%bool eqn:Hs; script_simpl.
{ split; [split; [discriminate | intros (? & ? & _); discriminate]|].
  split; [intros ? (? & _); discriminate|].
  close_appended ltac:(cbv beta; reflexivity). }
destruct (json r) as [[| | | | | |d]|]; script_simpl;
  try (split; [split; [discriminate | intros (? & _ & ? & _); discriminate]|];
       split; [intros ? (_ & ? & _); discriminate|];
       close_appended ltac:(cbv beta; reflexivity)).
destruct (d !! "access_token") as [v|] eqn:Hv; cbn [default from_option id].
- destruct (truthy v) eqn:Ht; script_simpl.
  + split; [split; [intros _; exists v; auto | reflexivity]|].
    split; [intros ? (_ & [= <-] & _); reflexivity|].
    close_appended ltac:(cbv beta; reflexivity).
  + split; [split; [discriminate | intros (? & _ & [= <-] & ?); congruence]|].
    split; [intros ? (_ & [= <-] & ?); congruence|].
    close_appended ltac:(cbv beta; reflexivity).
- cbn [truthy]. script_simpl.
  split; [split; [discriminate | intros (? & _ & ? & _); discriminate]|].
  split; [intros ? (_ & ? & _); discriminate|].
  close_appended ltac:(cbv beta; reflexivity).
Qed.

(** A token that is held is reused: each operation then makes exactly one
  request, its own, carrying that token in the [Authorization] header. *)
Theorem held_token_reused (self : Publisher) (zip_path : path)
  (target : string) (st : state) (bytes : list Byte.byte) :
truthy (access_token st) = true ->
(zip_file w zip_path = Content bytes ->
 appends (upload_extension w self zip_path st) st
   (fun rs => rs = [upload_request self (access_token st) bytes])) /\
appends (publish_extension w self target st) st
  (fun rs => rs = [publish_request self (access_token st) target]) /\
appends (get_extension_info w self st) st
  (fun rs => rs = [info_request self (access_token st)]).
Proof.
intros Hheld. unfold appends. unfold_script. rewrite Hheld.
repeat split.
1: intros Hzip; rewrite Hzip.
all: exec; close_appended ltac:(cbv beta; reflexivity).
Qed.

(** When the ZIP cannot be read, [upload_extension] never sends the
  upload: it fails, having made at most the token request. *)
Theorem unreadable_zip_not_uploaded (self : Publisher) (zip_path : path)
  (st : state) :
(forall bytes, zip_file w zip_path <> Content bytes) ->
fst (upload_extension w self zip_path st) <> Return true /\
appends (upload_extension w self zip_path st) st
  (fun rs => rs = [] \/ rs = [token_request self]).
Proof.
intros Hzip. unfold appends. unfold_script.
destruct (zip_file w zip_path) as [|e|bytes] eqn:Hz;
  [| | now destruct (Hzip bytes)].
all: split; exec; try discriminate;
  close_appended ltac:(cbv beta; first [left; reflexivity | right; reflexivity]).
Qed.

(** A transport error is reported and becomes the failure value: the
  refresh and, with a token held, each operation print the error after
  their single request and return [False] ([None] for the info call);
  the refresh leaves the stored token as it was. *)
Theorem transport_error_reported (self : Publisher) (zip_path : path)
  (target : string) (st : state) (bytes : list Byte.byte)
  (detail : string) :
(forall r, net w (requests (trace st)) r = NetError detail) ->
ends_with (_refresh_access_token w self st) st (Return false)
  [EPrint MsgRefreshing; EHttp (token_request self);
   EPrint (MsgRefreshError (ConnectionError detail))] /\
access_token (snd (_refresh_access_token w self st)) = access_token st /\
(truthy (access_token st) = true ->
 (zip_file w zip_path = Content bytes ->
  ends_with (upload_extension w self zip_path st) st (Return false)
    [EPrint (MsgUploading zip_path);
     EHttp (upload_request self (access_token st) bytes);
     EPrint (MsgUploadError (ConnectionError detail))]) /\
 ends_with (publish_extension w self target st) st (Return false)
   [EPrint (MsgPublishing target);
    EHttp (publish_request self (access_token st) target);
    EPrint (MsgPublishError (ConnectionError detail))] /\
 ends_with (get_extension_info w self st) st (Return PyNone)
   [EPrint MsgFetchingInfo;
    EHttp (info_request self (access_token st));
    EPrint (MsgInfoError (ConnectionError detail))]).
Proof.
intros Hnet. unfold_script. script_simpl.
split; [rewrite Hnet; close_trace|].
split; [rewrite Hnet; reflexivity|].
intros Hheld. rewrite Hheld. script_simpl.
split; [intros Hzip; rewrite Hzip|]; [|split];
  script_simpl; rewrite Hnet; close_trace.
Qed.

(** With a token held, [get_extension_info] returns the parsed body of a
  200 reply and [None] for any other status or a body that is not
  JSON. *)
Theorem info_result (self : Publisher) (st : state) (r : response) :
truthy (access_token st) = true ->
net w (requests (trace st)) (info_request self (access_token st)) =
  NetResponse r ->
fst (get_extension_info w self st) =
  Return (if (status_code r =? 200)%Z then default PyNone (json r)
          else PyNone).
Proof.
intros Hheld Hnet. unfold_script. script_simpl. rewrite Hheld.
script_simpl. rewrite Hnet.
destruct (status_code r =? 200)%Z; script_simpl; [|reflexivity].
destruct (json r); reflexivity.
Qed.

(** The publish reply beyond the well-formed case: any status but 200
  fails with the status and the raw text; under status 200 a [status]
  field that is a string succeeds when it has ["OK"] as a substring, a
  [status] field that is not iterable fails with a [TypeError], and a
  missing field fails as the empty list. *)
Theorem publish_edge_cases (self : Publisher) (target : string)
  (st st1 : state) (r : response) :
token_unavailable w self st = (Return false, st1) ->
net w (requests (trace st1))
  (publish_request self (access_token st1) target) = NetResponse r ->
(status_code r <> 200%Z ->
 fst (publish_extension w self target st) = Return false /\
 last (printed (trace (snd (publish_extension w self target st)))) =
   Some (MsgHttpError (status_code r) (text r))) /\
(status_code r = 200%Z ->
 (forall s, body_field r "status" = Some (PyStr s) ->
    fst (publish_extension w self target st) =
      Return (substring_in "OK" s)) /\
 (forall v, body_field r "status" = Some v -> not_iterable v ->
    fst (publish_extension w self target st) = Return false /\
    last (printed (trace (snd (publish_extension w self target st)))) =
      Some (MsgPublishError TypeError)) /\
 (forall d, json r = Some (PyDict d) -> d !! "status" = None ->
    fst (publish_extension w self target st) = Return false /\
    last (printed (trace (snd (publish_extension w self target st)))) =
      Some (MsgPublishFailed (PyList [])))).
Proof.
intros Htok Hnet.
unfold publish_extension, mbind, M_bind. rewrite Htok. clear Htok.
unfold body_field. unfold_script. script_simpl. rewrite Hnet.
split.
- intros Hs. apply Z.eqb_neq in Hs. rewrite Hs. script_simpl.
  split; [reflexivity|]. rewrite printed_app. apply last_snoc.
- intros Hs. rewrite Hs. cbn [Z.eqb Pos.eqb].
  split; [|split].
  + intros s Hf.
    destruct (json r) as [[| | | | | |d]|]; try discriminate.
    script_simpl. rewrite Hf. cbn [default from_option id].
    destruct (substring_in "OK" s); reflexivity.
  + intros v Hf Hni.
    destruct (json r) as [[| | | | | |d]|]; try discriminate.
    script_simpl. rewrite Hf. cbn [default from_option id].
    destruct v; try contradiction; script_simpl;
      (split; [reflexivity|]); rewrite printed_app; apply last_snoc.
  + intros d Hj Hnone. rewrite Hj. script_simpl. rewrite Hnone.
    cbn [default from_option id existsb]. script_simpl.
    split; [reflexivity|]. rewrite printed_app. apply last_snoc.
Qed.

End OperationDetails.
(** ** Stripping white space *)

Lemma append_cons (a : ascii) (s t : string) :
  (String a s ++ t)%string = String a (s ++ t)%string.
Proof. reflexivity. Qed.

Lemma append_associative (a b c : string) :
  ((a ++ b) ++ c)%string = (a ++ b ++ c)%string.
Proof.
  induction a as [|x a IH]; [reflexivity|].
  rewrite !append_cons. now rewrite IH.
Qed.

Lemma has_char_app (c : ascii) (a b : string) :
  has_char c (a ++ b)%string = has_char c a || has_char c b.
Proof.
  induction a as [|x a IH]; [reflexivity|].
  rewrite append_cons. cbn [has_char]. rewrite IH. apply orb_assoc.
Qed.

Lemma string_strong_ind (P : string -> Prop) :
  (forall s, (forall t, (String.length t < String.length s)%nat -> P t) -> P s) ->
  forall s, P s.
Proof.
  intros step s. remember (String.length s) as n eqn:Hn.
  revert s Hn. induction n as [n IH] using lt_wf_ind.
  intros s ->. apply step. intros t Ht. now apply (IH (String.length t)).
Qed.

Lemma lstrip_step (a : ascii) (s1 : string) :
  lstrip (String a s1) =
    if isspace1 a then lstrip s1 else
    match s1 with
    | String b s2 =>
        if isspace2 a b then lstrip s2 else
        match s2 with
        | String c s3 => if isspace3 a b c then lstrip s3 else String a s1
        | EmptyString => String a s1
        end
    | EmptyString => String a s1
    end.
Proof. destruct s1 as [|b [|c s3]]; reflexivity. Qed.

(** [lstrip] cuts a prefix off, [rstrip] a suffix. *)
Lemma lstrip_suffix (s : string) : exists p, s = (p ++ lstrip s)%string.
Proof.
  induction s as [s IH] using string_strong_ind.
  destruct s as [|a s1]; [now exists ""|].
  rewrite lstrip_step. destruct (isspace1 a).
  { destruct (IH s1) as [p Hp]; [cbn; lia|].
    exists (String a p). rewrite append_cons. now rewrite <- Hp. }
  destruct s1 as [|b s2]; [now exists ""|].
  destruct (isspace2 a b).
  { destruct (IH s2) as [p Hp]; [cbn; lia|].
    exists (String a (String b p)). rewrite !append_cons. now rewrite <- Hp. }
  destruct s2 as [|c s3]; [now exists ""|].
  destruct (isspace3 a b c); [|now exists ""].
  destruct (IH s3) as [p Hp]; [cbn; lia|].
  exists (String a (String b (String c p))).
  rewrite !append_cons. now rewrite <- Hp.
Qed.

Lemma rstrip_prefix (s : string) : exists t, s = (rstrip s ++ t)%string.
Proof.
  induction s as [|a s [t IH]]; [now exists ""|].
  cbn [rstrip]. destruct (isspace _).
  - now exists (String a s).
  - exists t. rewrite append_cons. now rewrite <- IH.
Qed.

(** Stripping brings no character in. *)
Lemma has_char_strip (c : ascii) (s : string) :
  has_char c s = false -> has_char c (strip s) = false.
Proof.
  intros Hs. unfold strip.
  destruct (lstrip_suffix s) as [p Hp].
  destruct (rstrip_prefix (lstrip s)) as [t Ht].
  rewrite Hp, Ht, !has_char_app in Hs.
  apply orb_false_iff in Hs as [_ Hs]. now apply orb_false_iff in Hs as [Hs _].
Qed.

Lemma lstrip_head (s : string) : starts_space (lstrip s) = false.
Proof.
  induction s as [s IH] using string_strong_ind.
  destruct s as [|a s1]; [reflexivity|].
  rewrite lstrip_step. destruct (isspace1 a) eqn:Ha; [apply IH; cbn; lia|].
  destruct s1 as [|b s2]; [cbn [starts_space]; now rewrite Ha|].
  destruct (isspace2 a b) eqn:Hb; [apply IH; cbn; lia|].
  destruct s2 as [|c s3]; [cbn [starts_space]; now rewrite Ha, Hb|].
  destruct (isspace3 a b c) eqn:Hc; [apply IH; cbn; lia|].
  cbn [starts_space]. now rewrite Ha, Hb, Hc.
Qed.

Lemma lstrip_fixed (s : string) : starts_space s = false -> lstrip s = s.
Proof.
  destruct s as [|a s1]; [reflexivity|].
  rewrite lstrip_step. cbn [starts_space]. intros H.
  apply orb_false_iff in H as [-> H].
  destruct s1 as [|b s2]; [reflexivity|].
  apply orb_false_iff in H as [-> H].
  destruct s2 as [|c s3]; [reflexivity|].
  now rewrite H.
Qed.

Lemma starts_space_app (r t : string) :
  starts_space r = true -> starts_space (r ++ t)%string = true.
Proof.
  destruct r as [|a [|b [|c r3]]]; cbn [starts_space]; rewrite ?append_cons;
    cbn [starts_space]; intros H; try discriminate.
  - rewrite orb_false_r in H. now rewrite H.
  - rewrite orb_false_r in H. apply orb_true_iff in H as [-> | H]; [reflexivity|].
    rewrite H. destruct t; cbn; now rewrite ?orb_true_r.
  - exact H.
Qed.

Lemma rstrip_head (s : string) :
  starts_space s = false -> starts_space (rstrip s) = false.
Proof.
  intros Hs. destruct (rstrip_prefix s) as [t Ht].
  destruct (starts_space (rstrip s)) eqn:Hr; [|reflexivity].
  apply (starts_space_app _ t) in Hr. rewrite <- Ht in Hr. congruence.
Qed.

Lemma rstrip_app_blank (s t : string) :
  rstrip t = "" -> rstrip (s ++ t)%string = rstrip s.
Proof.
  intros Ht. induction s as [|a s IH]; [exact Ht|].
  rewrite append_cons. cbn [rstrip]. now rewrite IH.
Qed.

Lemma rstrip_idempotent (s : string) : rstrip (rstrip s) = rstrip s.
Proof.
  induction s as [|a s IH]; [reflexivity|].
  cbn [rstrip]. destruct (isspace (String a (rstrip s))) eqn:Ha; [reflexivity|].
  cbn [rstrip]. now rewrite IH, Ha.
Qed.

(** Stripping twice is stripping once. *)
Lemma strip_idempotent (s : string) : strip (strip s) = strip s.
Proof.
  unfold strip.
  rewrite (lstrip_fixed (rstrip (lstrip s)))
    by apply rstrip_head, lstrip_head.
  apply rstrip_idempotent.
Qed.

Lemma rstrip_strip (s : string) : rstrip (strip s) = strip s.
Proof. unfold strip. apply rstrip_idempotent. Qed.

(** A plain character is never white space, alone or with what follows. *)
Lemma plain_not_space (a : ascii) (r : string) :
  plain a = true -> isspace (String a r) = false.
Proof.
  unfold plain. intros H. apply andb_true_iff in H as [Hlt Hsp].
  apply negb_true_iff in Hsp. apply N.ltb_lt in Hlt.
  destruct r as [|b [|c [|d r]]]; cbn [isspace]; [exact Hsp| | |reflexivity].
  - unfold isspace2. destruct (N.eqb_spec (N_of_ascii a) 194); [lia | reflexivity].
  - unfold isspace3.
    destruct (N.eqb_spec (N_of_ascii a) 225); [lia|].
    destruct (N.eqb_spec (N_of_ascii a) 226); [lia|].
    destruct (N.eqb_spec (N_of_ascii a) 227); [lia | reflexivity].
Qed.

Lemma plain_not_leading (a : ascii) (s : string) :
  plain a = true -> starts_space (String a s) = false.
Proof.
  intros H.
  pose proof (plain_not_space a "" H) as H1.
  destruct s as [|b [|c s3]]; cbn [starts_space].
  - cbn [isspace] in H1. now rewrite H1.
  - pose proof (plain_not_space a (String b "") H) as H2.
    cbn [isspace] in H1, H2. now rewrite H1, H2.
  - pose proof (plain_not_space a (String b "") H) as H2.
    pose proof (plain_not_space a (String b (String c "")) H) as H3.
    cbn [isspace] in H1, H2, H3. now rewrite H1, H2, H3.
Qed.

Lemma rstrip_plain (p s : string) :
  all_plain p = true -> rstrip (p ++ s)%string = (p ++ rstrip s)%string.
Proof.
  induction p as [|a p IH]; [reflexivity|].
  cbn [all_plain]. intros H. apply andb_true_iff in H as [Ha Hp].
  rewrite !append_cons. cbn [rstrip]. rewrite IH by assumption.
  now rewrite plain_not_space.
Qed.

(** A line [NAME=value] written by the wizard, line break and all, is
    stripped to [NAME=value]. *)
Lemma strip_setting (a : ascii) (name x : string) :
  all_plain (String a name) = true ->
  strip (String a name ++ strip x ++ newline)%string
    = (String a name ++ strip x)%string.
Proof.
  intros Hp. unfold strip at 1.
  rewrite lstrip_fixed.
  - rewrite <- append_associative.
    rewrite rstrip_app_blank by reflexivity.
    rewrite rstrip_plain by assumption. now rewrite rstrip_strip.
  - rewrite append_cons. apply plain_not_leading.
    cbn [all_plain] in Hp. now apply andb_true_iff in Hp as [Hp _].
Qed.

Ltac setting_line :=
  unfold assignment;
  rewrite strip_setting by reflexivity;
  cbv [String.append]; cbn -[strip]; now rewrite strip_idempotent.

Lemma client_id_line (x : string) :
  assignment ("CWS_CLIENT_ID=" ++ strip x ++ newline)%string =
    Some ("CWS_CLIENT_ID", strip x).
Proof. setting_line. Qed.

Lemma client_secret_line (x : string) :
  assignment ("CWS_CLIENT_SECRET=" ++ strip x ++ newline)%string =
    Some ("CWS_CLIENT_SECRET", strip x).
Proof. setting_line. Qed.

Lemma refresh_token_line (x : string) :
  assignment ("CWS_REFRESH_TOKEN=" ++ strip x ++ newline)%string =
    Some ("CWS_REFRESH_TOKEN", strip x).
Proof. setting_line. Qed.

Lemma extension_id_line (x : string) :
  assignment ("CWS_EXTENSION_ID=" ++ strip x ++ newline)%string =
    Some ("CWS_EXTENSION_ID", strip x).
Proof. setting_line. Qed.

(** A line that starts with [#] assigns nothing, whatever follows. *)
Lemma comment_line (s : string) : assignment (String "#" s) = None.
Proof.
  unfold assignment, strip.
  rewrite lstrip_fixed by now apply plain_not_leading.
  pose proof (rstrip_plain "#" s eq_refl) as H.
  change (rstrip (String "#" s) = String "#" (rstrip s)) in H.
  rewrite H. destruct (rstrip s); reflexivity.
Qed.

Lemma comment_line_app (s t : string) :
  assignment (String "#" s ++ t)%string = None.
Proof. rewrite append_cons. apply comment_line. Qed.

Lemma blank_line : assignment newline = None.
Proof. reflexivity. Qed.


(** ** The credential file and the project files *)

Lemma split1_found (sep : ascii) (s : string) :
  has_char sep s = true -> exists key value, split1 sep s = Some (key, value).
Proof.
  induction s as [|c s IH]; [discriminate|].
  cbn [has_char split1]. destruct (Ascii.eqb c sep); [eauto|].
  intros H. destruct (IH H) as (key & value & ->). eauto.
Qed.

(** [split1] cuts at the first separator: the key holds none, and key,
    separator and value give the line back. *)
Lemma split1_first (sep : ascii) (s key value : string) :
  split1 sep s = Some (key, value) ->
  s = (key ++ String sep value)%string /\ has_char sep key = false.
Proof.
  revert key value. induction s as [|c s IH]; intros key value; [discriminate|].
  cbn [split1]. destruct (Ascii.eqb c sep) eqn:Hc.
  - intros [= <- <-]. apply Ascii.eqb_eq in Hc as ->. split; reflexivity.
  - destruct (split1 sep s) as [[k v]|]; [|discriminate].
    intros [= <- <-]. destruct (IH k v eq_refl) as [-> Hk].
    split; [reflexivity|]. cbn [has_char]. rewrite Hc. exact Hk.
Qed.

Section ProjectFiles.

Variable w : World.

Lemma load_env_lines_step (line : string) (rest : list string) (st : state) :
load_env_lines (line :: rest) st =
  match assignment line with
  | Some (key, value) =>
      match setenv key value st with
      | (Return _, st') => load_env_lines rest st'
      | (Raise e, st') => (Raise e, st')
      | (SysExit n, st') => (SysExit n, st')
      end
  | None => load_env_lines rest st
  end.
Proof.
cbn [load_env_lines]. unfold assignment, mbind, M_bind.
destruct (_ && _ && _)%bool eqn:Hguard; [|reflexivity].
apply andb_true_iff in Hguard as [_ Heq].
destruct (split1_found _ _ Heq) as (key & value & ->). reflexivity.
Qed.

Lemma setenv_cases (key value : string) (st : state) :
(accepted key value /\
 setenv key value st =
   (Return tt, mkState (access_token st) (<[key := value]> (environ st))
                 (stdin st) (trace st))) \/
(exists e, putenv_error key value = Some e /\
           setenv key value st = (Raise e, st)).
Proof.
unfold accepted, setenv. destruct (putenv_error key value) as [e|];
  [right; eauto | left; split; reflexivity].
Qed.

(** The name a line assigns holds no [=]: the line is cut at the first. *)
Lemma assignment_key (line key value : string) :
assignment line = Some (key, value) -> has_char "=" key = false.
Proof.
unfold assignment. destruct (_ && _ && _)%bool; [|discriminate].
destruct (split1 "=" (strip line)) as [[k v]|] eqn:Hs; [|discriminate].
intros [= <- <-]. apply has_char_strip.
now destruct (split1_first _ _ _ _ Hs).
Qed.

Lemma load_env_lines_app (pre rest : list string) (st : state) :
load_env_lines (pre ++ rest) st =
  match load_env_lines pre st with
  | (Return _, st') => load_env_lines rest st'
  | other => other
  end.
Proof.
revert st. induction pre as [|line pre IH]; intros st; [reflexivity|].
cbn [app]. rewrite !load_env_lines_step.
destruct (assignment line) as [[key value]|]; [|apply IH].
destruct (setenv_cases key value st) as [[_ ->] | (e & _ & ->)];
  [apply IH|reflexivity].
Qed.

Lemma load_env_lines_unassigned (lines : list string) (st : state)
  (var : string) :
unassigned var lines ->
environ (snd (load_env_lines lines st)) !! var = environ st !! var.
Proof.
revert st. induction lines as [|line lines IH]; intros st Hun; [reflexivity|].
assert (Hrest : unassigned var lines)
  by (intros l v Hin; apply Hun; now right).
rewrite load_env_lines_step.
destruct (assignment line) as [[key value]|] eqn:Ha; [|now apply IH].
destruct (setenv_cases key value st) as [[_ ->] | (e & _ & ->)];
  [|reflexivity].
rewrite IH by assumption. cbn [environ].
apply lookup_insert_ne. intros ->. apply (Hun line value); [now left | assumption].
Qed.

(** A variable that no line of the file assigns keeps the value it had in
  the environment, whether or not the file loads to its end; so does
  every variable when the file holds only blank lines, comments and
  lines without [=]. *)
Theorem env_file_keeps_unassigned (lines : list string) (st : state) :
(forall var, unassigned var lines ->
   environ (snd (load_env_lines lines st)) !! var = environ st !! var) /\
((forall line, In line lines -> assignment line = None) ->
 environ (snd (load_env_lines lines st)) = environ st).
Proof.
split; [intros var; apply load_env_lines_unassigned|].
intros Hnone. apply map_eq. intros var.
apply load_env_lines_unassigned. intros line value Hin.
rewrite (Hnone line Hin). discriminate.
Qed.

(** When the file loads to its end, a variable has the value of the last
  line that assigns it: the file overrides the environment, and a later
  line overrides an earlier one. *)
Theorem env_file_last_wins (pre rest : list string) (line var value : string)
  (st : state) :
fst (load_env_lines (pre ++ line :: rest) st) = Return tt ->
assignment line = Some (var, value) ->
unassigned var rest ->
environ (snd (load_env_lines (pre ++ line :: rest) st)) !! var = Some value.
Proof.
intros Hok Ha Hun. rewrite load_env_lines_app in *.
destruct (load_env_lines pre st) as [[[]|e|n] st1]; try discriminate.
rewrite load_env_lines_step, Ha in *.
destruct (setenv_cases var value st1) as [[_ Hset] | (e & _ & Hset)];
  rewrite Hset in *; [|discriminate].
rewrite load_env_lines_unassigned by assumption.
cbn [environ]. apply lookup_insert_eq.
Qed.

(** A line whose name or value [os.environ] refuses ends the loading
  there, with the error of the refusal: the lines before it stay
  applied, the lines after it are never read.  A line meets two
  refusals only: [ValueError] for a NUL character in the name or the
  value, and otherwise [OSError] ([Errno 22]) for an empty name. *)
Theorem env_file_error_stops (pre rest : list string) (line key value : string)
  (st : state) :
fst (load_env_lines pre st) = Return tt ->
assignment line = Some (key, value) ->
~ accepted key value ->
load_env_lines (pre ++ line :: rest) st =
  (Raise (if has_char Ascii.zero key || has_char Ascii.zero value
          then ValueError else OSError "Invalid argument"),
   snd (load_env_lines pre st)) /\
((has_char Ascii.zero key || has_char Ascii.zero value)%bool = false ->
 key = "").
Proof.
intros Hpre Ha Hbad. rewrite load_env_lines_app.
destruct (load_env_lines pre st) as [[[]|e|n] st1]; try discriminate.
rewrite load_env_lines_step, Ha. cbn [snd].
pose proof (assignment_key _ _ _ Ha) as Hkey.
unfold accepted in Hbad. unfold setenv.
unfold putenv_error in *. rewrite Hkey in *.
destruct (has_char Ascii.zero key || has_char Ascii.zero value)%bool;
  [split; [reflexivity | discriminate]|].
destruct (String.eqb_spec key ""); [|contradiction].
split; [reflexivity | intros _; assumption].
Qed.

(** [load_env_file] never raises and never exits: whatever the file
  holds, it returns a boolean, with the token and the pending input
  untouched and nothing but its own two lines printed. *)
Theorem load_env_file_total (st : state) :
exists b st',
  load_env_file w st = (Return b, st') /\
  access_token st' = access_token st /\ stdin st' = stdin st /\
  (exists pr, trace st' = trace st ++ pr /\ env_prints pr) /\
  (env_file w = Absent -> b = false /\ st' = st).
Proof.
destruct (load_env_file_returns w st) as (b & env' & pr & Heq & Hpr).
exists b, (mkState (access_token st) env' (stdin st) (trace st ++ pr)).
split; [assumption|].
split; [reflexivity|]. split; [reflexivity|].
split; [exists pr; split; [reflexivity | assumption]|].
intros Habs. unfold load_env_file in Heq. rewrite Habs in Heq.
cbn in Heq. injection Heq as <- Hst. split; [reflexivity|]. now rewrite <- Hst.
Qed.

(** [get_env_vars] returns the values of the four variables as the
  environment holds them once the file is loaded, in the order client
  id, client secret, refresh token, extension id. *)
Theorem get_env_vars_values (st st' : state) (values : list string) :
get_env_vars w st = (Return values, st') ->
environ st' = environ (snd (load_env_file w st)) /\
(Some <$> values) =
  [environ st' !! "CWS_CLIENT_ID"; environ st' !! "CWS_CLIENT_SECRET";
   environ st' !! "CWS_REFRESH_TOKEN"; environ st' !! "CWS_EXTENSION_ID"].
Proof.
intros Hret.
destruct (get_env_vars_cases w st)
  as (env' & pr & _ & Henv &
      [(_ & m & Heq) | (_ & a & b & c & d & Heq & Ha & _ & Hb & _ & Hc & _ & Hd & _)]).
- rewrite Heq in Hret. discriminate.
- rewrite Heq in Hret. injection Hret as <- <-. cbn [environ].
  split; [assumption|]. cbn. congruence.
Qed.

Lemma get_project_info_cases (st : state) :
(forall d, package_json w = Content (PyDict d) ->
   get_project_info w st =
     (Return (default (PyStr "1.0.0") (d !! "version")), st)) /\
((forall d, package_json w <> Content (PyDict d)) ->
 exists m,
   get_project_info w st =
     (SysExit 1, mkState (access_token st) (environ st) (stdin st)
                   (trace st ++ [EPrint m]))).
Proof.
unfold get_project_info. split.
- intros d ->. unfold_script. destruct st; reflexivity.
- intros Hno. unfold_script.
  destruct (package_json w) as [|e|[| | | | | |d]]; cbn [file_exists negb];
    try (eexists; reflexivity).
  now destruct (Hno d).
Qed.

(** [get_project_info] returns the [version] of a [package.json] that
  holds a JSON object, ["1.0.0"] when the object has none, and changes
  nothing; in every other case (no file, a file that cannot be read or
  parsed, a document that is not an object) it prints one line and
  exits with status 1. *)
Theorem get_project_info_result (st : state) :
(forall d, package_json w = Content (PyDict d) ->
   get_project_info w st =
     (Return (default (PyStr "1.0.0") (d !! "version")), st)) /\
((forall d, package_json w <> Content (PyDict d)) ->
 exists m,
   get_project_info w st =
     (SysExit 1, mkState (access_token st) (environ st) (stdin st)
                   (trace st ++ [EPrint m]))).
Proof. apply get_project_info_cases. Qed.

(** Without its artifact the program stops before any request, with
  status 1: a [--zip] path that does not exist is not replaced by the
  built package, and without [--zip] the package built for the version
  of [package.json] must exist. *)
Theorem artifact_required (act : Action) (zip_arg : option string) :
act <> Setup ->
(match zip_arg with
 | Some (String c z) => zip_file w (ArgPath (String c z)) = Absent
 | _ => forall d, package_json w = Content (PyDict d) ->
          zip_file w (BuildsZip (default (PyStr "1.0.0") (d !! "version")))
            = Absent
 end) ->
fst (run w (mkArgs act zip_arg)) = 1%Z /\
requests (snd (run w (mkArgs act zip_arg))) = [].
Proof.
intros Hact Hzip.
enough (Hrun : exists t, run w (mkArgs act zip_arg) = (1%Z, t) /\
                         requests t = [])
  by (destruct Hrun as (t & -> & Ht); split; [reflexivity | exact Ht]).
destruct (get_env_vars_cases w (initial_state w))
  as (env' & pr & Hpr & _ &
      [(_ & m & Heq) | (_ & a & b & c & d & Heq & _)]).
- rewrite (run_without_credentials w (mkArgs act zip_arg) _ Hact Heq).
  eexists. split; [reflexivity|].
  cbn [trace initial_state app].
  rewrite requests_app, (env_prints_silent _ Hpr). reflexivity.
- assert (Hinfo : forall st,
            (exists d0, package_json w = Content (PyDict d0) /\
               get_project_info w st =
                 (Return (default (PyStr "1.0.0") (d0 !! "version")), st)) \/
            (exists m, get_project_info w st =
               (SysExit 1, mkState (access_token st) (environ st) (stdin st)
                             (trace st ++ [EPrint m])))).
  { intros st. destruct (get_project_info_cases st) as [Hok Hbad].
    destruct (package_json w) as [|e|[| | | | | |d0]] eqn:Hp;
      try (right; apply Hbad; intros ? ?; discriminate).
    left. exists d0. split; [reflexivity | now apply Hok]. }
  unfold run, main. cbn [action].
  destruct act; try contradiction; unfold mbind at 1, M_bind at 1;
    rewrite Heq; unfold mbind at 1, M_bind at 1;
    (destruct (Hinfo (mkState (access_token (initial_state w)) env'
                        (stdin (initial_state w))
                        (trace (initial_state w) ++ pr)))
       as [(d0 & Hd & ->) | [m ->]];
     [| eexists; split; [reflexivity|];
        cbn [trace initial_state app];
        rewrite requests_app, (env_prints_silent _ Hpr); reflexivity]);
    unfold find_extension_zip; cbn [zip];
    (destruct zip_arg as [[|c0 z]|]; cbn [String.eqb negb];
     first [rewrite (Hzip d0 Hd) | rewrite Hzip];
     cbn [file_exists negb]; unfold_script;
     eexists; (split; [reflexivity|]);
     cbn [trace initial_state app];
     rewrite !requests_app, (env_prints_silent _ Hpr); reflexivity).
Qed.

End ProjectFiles.

(** ** The setup wizard *)

Section Wizard.

Variable w : World.

Lemma setenv_accepted (key value : string) (st : state) :
accepted key value ->
setenv key value st =
  (Return tt, mkState (access_token st) (<[key := value]> (environ st))
                (stdin st) (trace st)).
Proof.
intros Hok. destruct (setenv_cases key value st) as [[_ ->] | (e & Hbad & _)];
  [reflexivity | unfold accepted in Hok; congruence].
Qed.

(** [os.environ] accepts a name of plain characters without [=], with a
  value free of NUL. *)
Lemma accepted_setting (a : ascii) (name value : string) :
has_char Ascii.zero (String a name) = false ->
has_char "=" (String a name) = false ->
has_char Ascii.zero value = false ->
accepted (String a name) value.
Proof.
intros Hz He Hv. unfold accepted, putenv_error. now rewrite Hz, Hv, He.
Qed.

(** The file the wizard writes is read back by the next run: when
  [.env.cws] holds what the wizard saved for four usable answers,
  [get_env_vars] returns exactly those four answers, stripped. *)
Theorem saved_credentials_are_loaded (date a b c d : string) (st : state) :
env_file w =
  Content (credential_file date (strip a) (strip b) (strip c) (strip d)) ->
one_line date -> usable a -> usable b -> usable c -> usable d ->
exists st',
  get_env_vars w st = (Return [strip a; strip b; strip c; strip d], st').
Proof.
intros Henv _ (Ha & _ & Hza) (Hb & _ & Hzb) (Hc & _ & Hzc) (Hd & _ & Hzd).
unfold get_env_vars, load_env_file, credential_file.
rewrite Henv. cbn [file_exists]. unfold_script. cbv beta iota.
unfold credential_file. rewrite !load_env_lines_step.
rewrite !comment_line_app, blank_line.
rewrite client_id_line.
rewrite setenv_accepted by (apply accepted_setting; [reflexivity.. | assumption]).
rewrite !load_env_lines_step.
rewrite client_secret_line.
rewrite setenv_accepted by (apply accepted_setting; [reflexivity.. | assumption]).
rewrite !load_env_lines_step.
rewrite refresh_token_line.
rewrite setenv_accepted by (apply accepted_setting; [reflexivity.. | assumption]).
rewrite !load_env_lines_step.
rewrite extension_id_line.
rewrite setenv_accepted by (apply accepted_setting; [reflexivity.. | assumption]).
cbn [load_env_lines]. unfold mret, M_ret. rewrite scan_vars_pure.
cbn [environ]. unfold required_vars.
rewrite !filter_cons, filter_nil. cbn [map].
repeat (rewrite ?lookup_insert_eq;
        rewrite ?lookup_insert_ne by discriminate).
cbn [is_missing default from_option id].
apply String.eqb_neq in Ha, Hb, Hc, Hd. rewrite Ha, Hb, Hc, Hd.
rewrite !decide_False by discriminate.
eexists. reflexivity.
Qed.

(** Declining to overwrite an existing [.env.cws] (any answer but [y] or
  [yes], in any case and with any blanks around) ends the wizard at
  once: nothing is asked further and nothing is written. *)
Theorem setup_declined (zip_arg : option string) (answer : string)
  (rest : list string) :
file_exists (env_file w) = true ->
keyboard w = answer :: rest ->
lower (strip answer) <> "y" -> lower (strip answer) <> "yes" ->
run w (mkArgs Setup zip_arg) =
  (0%Z, [EPrint MsgWizardBanner; EPrint MsgExistingEnv;
         EPrint MsgSetupCancelled]).
Proof.
intros Hex Hkb Hy Hyes. apply String.eqb_neq in Hy, Hyes.
unfold_main. unfold_script. cbn [action]. rewrite Hex.
cbn [stdin trace access_token environ]. rewrite Hkb.
cbn [stdin trace access_token environ]. rewrite Hy, Hyes. reflexivity.
Qed.

Lemma setup_sends_nothing (zip_arg : option string) :
requests (snd (run w (mkArgs Setup zip_arg))) = [].
Proof.
unfold_main. unfold_script. cbn [action]. exec. all: reflexivity.
Qed.

(** The wizard never touches the network.  Its run ends with status 1
  exactly when the keyboard input ends before the answers the wizard
  waits for are all there, and with status 0 otherwise; when the input
  ends early nothing has been written. *)
Theorem setup_exit_status (zip_arg : option string) :
requests (snd (run w (mkArgs Setup zip_arg))) = [] /\
fst (run w (mkArgs Setup zip_arg)) =
  (if (length (keyboard w) <? answers_wanted w)%nat then 1%Z else 0%Z) /\
((length (keyboard w) <? answers_wanted w)%nat = true ->
 forall lines,
   ~ In (EWriteEnvFile lines) (snd (run w (mkArgs Setup zip_arg)))).
Proof.
enough (H : exists code t,
          run w (mkArgs Setup zip_arg) = (code, t) /\ requests t = [] /\
          code = (if (length (keyboard w) <? answers_wanted w)%nat
                  then 1%Z else 0%Z) /\
          ((length (keyboard w) <? answers_wanted w)%nat = true ->
           forall lines, ~ In (EWriteEnvFile lines) t))
  by (destruct H as (code & t & -> & H); exact H).
unfold answers_wanted. unfold_main. unfold_script. cbn [action]. exec.
all: cbn [length Nat.ltb Nat.leb] in *; try congruence.
all: do 2 eexists; split; [reflexivity|]; split; [reflexivity|].
all: cbn [exit_status].
all: split; [reflexivity|].
all: first [ discriminate
           | intros _ lines Hin; cbn [app In] in Hin;
             repeat (destruct Hin as [Hin | Hin]; try discriminate Hin);
             contradiction ].
Qed.

(** Whatever the wizard saves to [.env.cws] is a complete credential
  file made of the answers in the order of the questions: after the
  answer to the overwrite question, if that was asked, the client id,
  the client secret, the refresh token and the extension id, each
  stripped and none of them empty. *)
Theorem setup_saves_complete_credentials (zip_arg : option string)
  (lines : list string) :
In (EWriteEnvFile lines) (snd (run w (mkArgs Setup zip_arg))) ->
exists a b c d rest,
  drop (if file_exists (env_file w) then 1 else 0) (keyboard w)
    = a :: b :: c :: d :: rest /\
  lines = credential_file (strip (date w)) (strip a) (strip b) (strip c)
            (strip d) /\
  strip a <> "" /\ strip b <> "" /\ strip c <> "" /\ strip d <> "".
Proof.
unfold_main. unfold_script. cbn [action]. exec.
all: cbn [app In]; intros Hin;
  repeat (destruct Hin as [Hin | Hin]; try discriminate Hin);
  try contradiction.
all: injection Hin as <-.
all: repeat match goal with
       | H : (_ || _)%bool = false |- _ =>
           apply orb_false_iff in H as [? ?]
       | H : String.eqb _ "" = false |- _ => apply String.eqb_neq in H
       end.
all: do 5 eexists; split; [reflexivity|]; split; [reflexivity|];
  repeat split; assumption.
Qed.

End Wizard.

(** ** The requests of a whole run *)

Lemma granted_token (r : response) (d : gmap string pyval) :
  ((400 <=? status_code r) && (status_code r <? 600))%Z = false ->
  json r = Some (PyDict d) ->
  truthy (default PyNone (d !! "access_token")) = true ->
  reply_grants r (default PyNone (d !! "access_token")).
Proof.
  intros Hs Hj Ht. unfold reply_grants, body_field. rewrite Hj.
  destruct (d !! "access_token"); [auto | discriminate].
Qed.

Ltac plan_token :=
  match goal with
  | Hn : net ?w _ _ = NetResponse ?r, Hj : json ?r = Some (PyDict ?d),
    Hs : (_ && _)%bool = false,
    Ht : truthy (default PyNone (?d !! "access_token")) = true |- _ =>
      exists r, (default PyNone (d !! "access_token"));
      eexists; split; [exact Hn|];
      split; [exact (granted_token r d Hs Hj Ht)|]
  end.

Ltac plan_zip :=
  match goal with
  | Hz : zip_file _ ?p = Content ?bytes |- _ =>
      exists p, bytes; split; [exact Hz|]
  end.

Ltac plan_authorized :=
  unfold authorized_plan;
  first
    [ left; split; reflexivity
    | right; plan_zip;
      first [ left; split; [discriminate | reflexivity]
            | right; left; split; reflexivity
            | right; right; split; reflexivity ] ].

Ltac absurd_leaf :=
  exfalso;
  match goal with
  | H : _ = _ |- _ => solve [cbn in H; discriminate H]
  end.

Ltac plan_leaf self Hbuilt :=
  repeat match goal with
         | H : Content _ = Content _ |- _ => injection H as <-
         end;
  first
    [ left; reflexivity
    | right; exists self; split; [exact Hbuilt|];
      first [ left; reflexivity
            | right; plan_token; split; [ | reflexivity]; plan_authorized ]
    | absurd_leaf ].

Section Plan.

Variable w : World.

(** A run makes no requests but these: first the token request, built
  from the four credentials of the loaded environment; then, only if
  it was granted, the requests of the action with the granted token in
  their [Authorization] header: the info call, or the upload of the
  ZIP that was read followed by at most one publish call. *)
Theorem run_follows_plan (args : Args) :
run_plan w (action args) (requests (snd (run w args))).
Proof.
destruct args as [act [[|c0 z]|]]; destruct act.
all: lazymatch goal with
     | |- run_plan _ (action {| action := Setup; zip := _ |}) _ =>
         left;
         match goal with
         | |- requests (snd (run w ?args)) = [] =>
             apply (setup_sends_nothing w (zip args))
         end
     | _ => idtac
     end.
all: match goal with
     | |- run_plan _ (action ?args) _ =>
         assert (Hns : action args <> Setup) by discriminate
     end.
all: destruct (get_env_vars_cases w (initial_state w))
       as (env' & pr & Hpr & Henv &
           [(_ & m & Heq) |
            (_ & a & b & c & d & Heq & Ha & _ & Hb & _ & Hc & _ & Hd & _)]).
all: try (rewrite (run_without_credentials w _ _ Hns Heq);
          left; cbn [snd trace initial_state app];
          rewrite requests_app, (env_prints_silent _ Hpr); reflexivity).
all: assert (Hbuilt : built_from (loaded_environ w) (mkPublisher a b c d))
       by (unfold built_from, loaded_environ; rewrite <- Henv;
           repeat split; assumption).
all: clear Ha Hb Hc Hd Henv Hns.
all: match goal with
     | |- run_plan _ _ ?rs0 =>
         generalize (eq_refl rs0); generalize rs0 at 2 3
     end.
all: intros rs; revert rs Hbuilt.
all: unfold run, main; cbn [action];
       unfold mbind at 1, M_bind at 1; rewrite Heq; clear Heq;
       unfold_main; unfold_script;
       cbn [app initial_state access_token environ stdin trace keyboard];
       exec;
       intros rs Hbuilt Hrs;
       destruct Hpr as [-> | [-> | [? ->]]];
       cbv [requests app] in Hrs; subst rs;
       cbn [requests app] in *;
       plan_leaf (mkPublisher a b c d) Hbuilt.
Qed.

End Plan.

(** ** The further properties on the sample worlds *)

Lemma refresh_result_witness :
  fst (_refresh_access_token Sample.happy Sample.self
         (initial_state Sample.happy)) = Return true.
Proof.
  apply (refresh_result Sample.happy Sample.self (initial_state Sample.happy)
           Sample.token_granted); [vm_compute; reflexivity|].
  exists (PyStr "ya29"). repeat split; vm_compute; reflexivity.
Defined.

Lemma held_token_reused_witness :
  appends (publish_extension Sample.happy Sample.self "testers"
             (Sample.holding Sample.happy))
    (Sample.holding Sample.happy)
    (fun rs => rs = [publish_request Sample.self (PyStr "ya29") "testers"]).
Proof.
  apply (held_token_reused Sample.happy Sample.self Sample.built "testers"
           (Sample.holding Sample.happy) Sample.zip_bytes).
  reflexivity.
Defined.

Lemma unreadable_zip_not_uploaded_witness :
  fst (upload_extension Sample.no_zip Sample.self Sample.built
         (initial_state Sample.no_zip)) <> Return true.
Proof.
  apply (unreadable_zip_not_uploaded Sample.no_zip Sample.self Sample.built
           (initial_state Sample.no_zip)).
  intros bytes. discriminate.
Defined.

Lemma transport_error_reported_witness :
  ends_with (_refresh_access_token Sample.offline Sample.self
               (initial_state Sample.offline))
    (initial_state Sample.offline) (Return false)
    [EPrint MsgRefreshing; EHttp (token_request Sample.self);
     EPrint (MsgRefreshError (ConnectionError "Connection refused"))].
Proof.
  apply (transport_error_reported Sample.offline Sample.self Sample.built
           "default" (initial_state Sample.offline) Sample.zip_bytes
           "Connection refused").
  intros r. reflexivity.
Defined.

Lemma info_result_witness :
  fst (get_extension_info Sample.info_fails Sample.self
         (Sample.holding Sample.info_fails)) = Return PyNone.
Proof.
  apply (info_result Sample.info_fails Sample.self
           (Sample.holding Sample.info_fails)
           (Sample.plain 500 "Internal Server Error"));
    vm_compute; reflexivity.
Defined.

Lemma publish_edge_cases_witness :
  fst (publish_extension Sample.publish_text Sample.self "default"
         (initial_state Sample.publish_text)) = Return true.
Proof.
  assert (Hgate : token_unavailable Sample.publish_text Sample.self
                    (initial_state Sample.publish_text)
                  = (Return false, Sample.after_refresh Sample.publish_text))
    by (vm_compute; reflexivity).
  assert (Hnet : net Sample.publish_text
                   (requests (trace (Sample.after_refresh Sample.publish_text)))
                   (publish_request Sample.self
                      (access_token (Sample.after_refresh Sample.publish_text))
                      "default")
                 = NetResponse Sample.status_as_text)
    by (vm_compute; reflexivity).
  destruct (publish_edge_cases Sample.publish_text Sample.self "default"
              (initial_state Sample.publish_text)
              (Sample.after_refresh Sample.publish_text)
              Sample.status_as_text Hgate Hnet)
    as [_ Hok].
  destruct (Hok eq_refl) as [Htext _].
  apply (Htext "NOT_OK"). vm_compute. reflexivity.
Defined.

Lemma env_file_keeps_unassigned_witness :
  environ (snd (load_env_lines Sample.env_lines
                  (initial_state Sample.from_env_file))) !! "HOME" = None.
Proof.
  rewrite (proj1 (env_file_keeps_unassigned Sample.env_lines
                    (initial_state Sample.from_env_file)) "HOME").
  - reflexivity.
  - intros line value Hin. cbn [Sample.env_lines In] in Hin.
    repeat (destruct Hin as [<- | Hin]; [vm_compute; discriminate|]).
    contradiction.
Defined.

Lemma env_file_last_wins_witness :
  environ (snd (load_env_lines
                  ["CWS_CLIENT_ID=old";
                   (Sample.nbsp ++ "CWS_CLIENT_ID = new" ++ Sample.nbsp)%string;
                   "# end"]
                  (initial_state Sample.happy))) !! "CWS_CLIENT_ID"
    = Some "new".
Proof.
  apply (env_file_last_wins ["CWS_CLIENT_ID=old"] ["# end"]
           (Sample.nbsp ++ "CWS_CLIENT_ID = new" ++ Sample.nbsp)%string
           "CWS_CLIENT_ID" "new" (initial_state Sample.happy)).
  - vm_compute. reflexivity.
  - vm_compute. reflexivity.
  - intros line value [<- | []]. vm_compute. discriminate.
Defined.

Lemma env_file_error_stops_witness :
  load_env_lines ["A=1"; "=oops"; "B=2"] (initial_state Sample.no_credentials)
    = (Raise (OSError "Invalid argument"),
       snd (load_env_lines ["A=1"] (initial_state Sample.no_credentials))).
Proof.
  assert (Hpre : fst (load_env_lines ["A=1"]
                        (initial_state Sample.no_credentials)) = Return tt)
    by (vm_compute; reflexivity).
  assert (Hline : assignment "=oops" = Some ("", "oops"))
    by (vm_compute; reflexivity).
  assert (Hbad : ~ accepted "" "oops")
    by (unfold accepted; vm_compute; discriminate).
  destruct (env_file_error_stops ["A=1"] ["B=2"] "=oops" "" "oops"
              (initial_state Sample.no_credentials) Hpre Hline Hbad)
    as [Hstops _].
  exact Hstops.
Defined.

Lemma load_env_file_total_witness :
  exists st',
    load_env_file Sample.happy (initial_state Sample.happy) = (Return false, st').
Proof.
  destruct (load_env_file_total Sample.happy (initial_state Sample.happy))
    as (b & st' & Heq & _ & _ & _ & Habs).
  destruct (Habs eq_refl) as [-> _]. exists st'. exact Heq.
Defined.

Lemma get_env_vars_values_witness :
  Some <$> ["id"; "s=cret"; "refresh"; "ext"] =
    [loaded_environ Sample.from_env_file !! "CWS_CLIENT_ID";
     loaded_environ Sample.from_env_file !! "CWS_CLIENT_SECRET";
     loaded_environ Sample.from_env_file !! "CWS_REFRESH_TOKEN";
     loaded_environ Sample.from_env_file !! "CWS_EXTENSION_ID"].
Proof.
  apply (get_env_vars_values Sample.from_env_file
           (initial_state Sample.from_env_file)
           (snd (get_env_vars Sample.from_env_file
                   (initial_state Sample.from_env_file)))).
  vm_compute. reflexivity.
Defined.

Lemma get_project_info_result_witness :
  get_project_info Sample.happy (initial_state Sample.happy) =
    (Return (PyStr "1.2.3"), initial_state Sample.happy).
Proof.
  rewrite (proj1 (get_project_info_result Sample.happy
                    (initial_state Sample.happy))
             (list_to_map [("name", PyStr "eksi-arti");
                           ("version", PyStr "1.2.3")]) eq_refl).
  vm_compute. reflexivity.
Defined.

Lemma artifact_required_witness :
  fst (run Sample.stale_build (mkArgs Publish None)) = 1%Z /\
  requests (snd (run Sample.stale_build (mkArgs Publish None))) = [].
Proof.
  apply (artifact_required Sample.stale_build Publish None).
  - discriminate.
  - intros d Hd. injection Hd as <-. vm_compute. reflexivity.
Defined.

Lemma setup_saves_complete_credentials_witness :
  exists a rest, keyboard Sample.wizard = a :: rest /\ strip a = "id".
Proof.
  assert (Hsaved : In (EWriteEnvFile
                         (credential_file "Mon Jan  1" "id" "secret" "refresh"
                            "ext"))
                      (snd (run Sample.wizard (mkArgs Setup None))))
    by (vm_compute; repeat (first [left; reflexivity | right])).
  destruct (setup_saves_complete_credentials Sample.wizard None _ Hsaved)
    as (a & b & c & d & rest & Hkeys & Hlines & _).
  exists a, (b :: c :: d :: rest). split; [exact Hkeys|].
  injection Hkeys as <- _. reflexivity.
Defined.

(** The no-break space behind [Y] is stripped, so the overwrite goes
    ahead; the input then ends after two of the four answers. *)
Lemma setup_exit_status_witness :
  fst (run Sample.hangs_up (mkArgs Setup None)) = 1%Z /\
  forall lines,
    ~ In (EWriteEnvFile lines) (snd (run Sample.hangs_up (mkArgs Setup None))).
Proof.
  destruct (setup_exit_status Sample.hangs_up None) as (_ & Hcode & Hnone).
  split; [exact Hcode | apply Hnone; reflexivity].
Defined.

Lemma saved_credentials_are_loaded_witness :
  exists st',
    get_env_vars Sample.after_wizard (initial_state Sample.after_wizard) =
      (Return [strip " id "; strip "secret"; strip "refresh"; strip "ext "], st').
Proof.
  apply (saved_credentials_are_loaded Sample.after_wizard "Mon Jan  1"
           " id " "secret" "refresh" "ext "
           (initial_state Sample.after_wizard)).
  - reflexivity.
  - split; reflexivity.
  - repeat split; [vm_compute; discriminate | reflexivity ..].
  - repeat split; [vm_compute; discriminate | reflexivity ..].
  - repeat split; [vm_compute; discriminate | reflexivity ..].
  - repeat split; [vm_compute; discriminate | reflexivity ..].
Defined.

Lemma setup_declined_witness :
  run Sample.keeps_file (mkArgs Setup None) =
    (0%Z, [EPrint MsgWizardBanner; EPrint MsgExistingEnv;
           EPrint MsgSetupCancelled]).
Proof.
  apply (setup_declined Sample.keeps_file None " No " []).
  - reflexivity.
  - reflexivity.
  - vm_compute. discriminate.
  - vm_compute. discriminate.
Defined.

Lemma exit_reports_success_witness :
  fst (run Sample.upload_unavailable_503 (mkArgs Upload None)) = 1%Z.
Proof.
  rewrite (exit_reports_success Sample.upload_unavailable_503
             (mkArgs Upload None)); [|left; reflexivity].
  vm_compute. reflexivity.
Defined.

Lemma operations_return_witness :
  returns (upload_extension Sample.no_token_field Sample.self Sample.built
             (initial_state Sample.no_token_field)).
Proof.
  apply (operations_return Sample.no_token_field Sample.self Sample.built
           "default" (initial_state Sample.no_token_field)).
  intros r v Hnet Hjson. vm_compute in Hnet. injection Hnet as <-.
  vm_compute in Hjson. injection Hjson as <-. eexists. reflexivity.
Defined.

Example happy_run_follows_plan :
  requests (snd (run Sample.happy (mkArgs Publish None))) =
    [token_request Sample.self;
     upload_request Sample.self (PyStr "ya29") Sample.zip_bytes;
     publish_request Sample.self (PyStr "ya29") "default"].
Proof. vm_compute. reflexivity. Qed.

Example wizard_writes :
  In (EWriteEnvFile
        (credential_file "Mon Jan  1" "id" "secret" "refresh" "ext"))
     (snd (run Sample.wizard (mkArgs Setup None))) /\
  In (EAppendGitignore [(".env.cws" ++ newline)%string])
     (snd (run Sample.wizard (mkArgs Setup None))) /\
  fst (run Sample.wizard (mkArgs Setup None)) = 0%Z.
Proof.
  repeat split; vm_compute; repeat (first [left; reflexivity | right]).
Qed.

Example no_break_space_is_stripped :
  assignment (Sample.nbsp ++ "FOO=bar")%string = Some ("FOO", "bar") /\
  assignment ("FOO = bar" ++ Sample.nbsp ++ newline)%string
    = Some ("FOO", "bar") /\
  assignment (Sample.wide_space ++ "# FOO=bar")%string = None.
Proof. repeat split; reflexivity. Qed.

Example overwrite_confirmed_with_no_break_space :
  In (EWriteEnvFile
        (credential_file "Mon Jan  1" "id" "secret" "refresh" "ext"))
     (snd (run Sample.overwrites (mkArgs Setup None))) /\
  fst (run Sample.overwrites (mkArgs Setup None)) = 0%Z.
Proof.
  split; vm_compute; [repeat (first [left; reflexivity | right]) | reflexivity].
Qed.

Example environ_refusals :
  putenv_error "" "oops" = Some (OSError "Invalid argument") /\
  putenv_error "A" (String Ascii.zero "") = Some ValueError /\
  putenv_error "" (String Ascii.zero "") = Some ValueError /\
  putenv_error "A=B" "1" = Some ValueError /\
  putenv_error "A B" "" = None.
Proof. repeat split; reflexivity. Qed.
